(** * icon_mcp: the Iconify tool server ([src/server.py])

    A shallow embedding of the request helper [_request_iconify], the
    parameter normalisers [_clamp_limit] and [_split_icon], and the five
    tool handlers built on them, followed by the properties the
    specification states about them.

    Conventions of the embedding:
    - a Python [str] is the list of its code points;
    - a Python [int] is a [Z] (unbounded, no wrap-around);
    - a [dict] is an association list in insertion order, written
      through [dict_set], which overwrites an existing key in place;
    - the HTTP transport is an oracle that answers a request from the
      history of the requests issued before it; a handler runs in a
      state-and-exception monad whose state is that history;
    - an exception is one of the [Exception] classes that the code and
      the HTTP client raise; the cancellation of the running task is
      not part of the model. *)

From Stdlib Require Import List ZArith NArith Bool Lia String Ascii.
Import ListNotations.
Local Open Scope Z_scope.

(* ------------------------------------------------------------------ *)
(** * Python strings *)

Module PyStr.

(** A Unicode code point. *)
Definition char := N.

Definition str := list char.

(** The text of a literal of the source. *)
Definition lit (s : string) : str :=
  List.map N_of_ascii (list_ascii_of_string s).

(** [a == b] *)
Fixpoint eqb (a b : str) : bool :=
  match a, b with
  | [], [] => true
  | x :: a', y :: b' => N.eqb x y && eqb a' b'
  | _, _ => false
  end.

(** [s.startswith(p)] *)
Fixpoint startswith (p s : str) : bool :=
  match p, s with
  | [], _ => true
  | _ :: _, [] => false
  | a :: p', b :: s' => N.eqb a b && startswith p' s'
  end.

(** [needle in s] for two strings: substring search. *)
Fixpoint contains (needle s : str) : bool :=
  startswith needle s ||
  match s with
  | [] => false
  | _ :: s' => contains needle s'
  end.

(** [str.isspace] on one code point: the white-space table of CPython
    (general category Zs, or bidirectional class WS, B or S). *)
Definition isspace (c : char) : bool :=
  let n := Z.of_N c in
  ((9 <=? n) && (n <=? 13)) || ((28 <=? n) && (n <=? 32))
  || (n =? 133) || (n =? 160) || (n =? 5760)
  || ((8192 <=? n) && (n <=? 8202))
  || (n =? 8232) || (n =? 8233) || (n =? 8239) || (n =? 8287)
  || (n =? 12288).

Fixpoint lstrip (s : str) : str :=
  match s with
  | [] => []
  | c :: s' => if isspace c then lstrip s' else s
  end.

Definition rstrip (s : str) : str := rev (lstrip (rev s)).

(** [s.strip()] *)
Definition strip (s : str) : str := rstrip (lstrip s).

(** [s.split(sep, maxsplit)] for a separator of one character. *)
Fixpoint split (sep : char) (maxsplit : nat) (s : str) {struct s}
  : list str :=
  match maxsplit, s with
  | O, _ => [s]
  | _, [] => [[]]
  | S m, c :: s' =>
      if N.eqb c sep then [] :: split sep m s'
      else match split sep maxsplit s' with
           | hd :: tl => (c :: hd) :: tl
           | [] => [[c]]
           end
  end.

(** [s.replace(old, new)] for [old] of one character. *)
Definition replace (old : char) (new : str) (s : str) : str :=
  flat_map (fun c => if N.eqb c old then new else [c]) s.

(** [sep.join(parts)] *)
Fixpoint join (sep : str) (parts : list str) : str :=
  match parts with
  | [] => []
  | [p] => p
  | p :: rest => p ++ sep ++ join sep rest
  end.

End PyStr.

Import PyStr.
Arguments lit s%_string.

(* ------------------------------------------------------------------ *)
(** * Python values *)

#[local] Set Warnings "-register-all".

(** The values that cross the handlers: what [resp.json()] and
    [resp.text] produce, and what a query-parameter mapping holds. A
    float is kept as the 64 bits of its IEEE-754 double. *)
Inductive pyval : Type :=
| PNone
| PBool (b : bool)
| PInt (n : Z)
| PFloat (bits : Z)
| PStr (s : str)
| PList (l : list pyval)
| PDict (d : list (str * pyval)).

(** Truth value of an object, as [if x:], [not x] and [x or y] test it. *)
Definition truthy (v : pyval) : bool :=
  match v with
  | PNone => false
  | PBool b => b
  | PInt n => negb (n =? 0)
  | PFloat bits => negb (bits mod 2 ^ 63 =? 0)
  | PStr s => match s with [] => false | _ => true end
  | PList l => match l with [] => false | _ => true end
  | PDict d => match d with [] => false | _ => true end
  end.

(** [x or y] *)
Definition py_or (x y : pyval) : pyval := if truthy x then x else y.

(** Exceptions. All of them derive from [Exception], so the clause
    [except Exception] of the request helper catches each one. *)
Inductive exn : Type :=
| ValueError (msg : str)
| TypeError
| TransportError
| HTTPStatusError
| JSONDecodeError.

Inductive res (A : Type) : Type :=
| Ok (a : A)
| Raise (e : exn).
Arguments Ok {A} a.
Arguments Raise {A} e.

(** [key in d] for a mapping with string keys. *)
Definition has_key (key : str) (d : list (str * pyval)) : bool :=
  existsb (fun kv => PyStr.eqb (fst kv) key) d.

(** [item in data] for a string [item]: key test on a mapping, element
    test on a list, substring test on a string; any other object is
    not iterable. *)
Definition py_in (item : str) (data : pyval) : res bool :=
  match data with
  | PDict d => Ok (has_key item d)
  | PList l =>
      Ok (existsb (fun v => match v with
                            | PStr s => PyStr.eqb s item
                            | _ => false
                            end) l)
  | PStr s => Ok (contains item s)
  | PNone | PBool _ | PInt _ | PFloat _ => Raise TypeError
  end.

(** ** Mappings in insertion order *)

Section Dict.
Context {V : Type}.

Definition dict := list (str * V).

(** [d[key] = v] *)
Fixpoint dict_set (key : str) (v : V) (d : dict) : dict :=
  match d with
  | [] => [(key, v)]
  | (k, w) :: d' =>
      if PyStr.eqb k key then (k, v) :: d'
      else (k, w) :: dict_set key v d'
  end.

(** [d.get(key)] *)
Fixpoint dict_get (key : str) (d : dict) : option V :=
  match d with
  | [] => None
  | (k, w) :: d' => if PyStr.eqb k key then Some w else dict_get key d'
  end.

(** [d.update(other)] *)
Definition dict_update (d other : dict) : dict :=
  fold_left (fun acc kv => dict_set (fst kv) (snd kv) acc) other d.

Definition dict_keys (d : dict) : list str := List.map fst d.
End Dict.
Arguments dict V : clear implicits.

(* ------------------------------------------------------------------ *)
(** * Parameter normalisers *)

(** [_clamp_limit], lines 54-58. *)
Definition _clamp_limit (n : option Z) : Z :=
  match n with
  | None => 64
  | Some n => Z.max 32 (Z.min 999 n)
  end.

(** The separator of an icon reference. *)
Definition colon : char := 58%N.

(** [_split_icon], lines 60-67. The unpacking [prefix, name = ...]
    needs exactly two parts. *)
Definition _split_icon (icon : str) : res (str * str) :=
  if negb (contains (lit ":") icon) then
    Raise (ValueError
             (lit "Icon must be in 'prefix:name' format, e.g., 'mdi:home'"))
  else
    match split colon 1 icon with
    | [prefix; name] =>
        match prefix, name with
        | [], _ | _, [] =>
            Raise (ValueError (lit "Invalid icon, expected 'prefix:name'"))
        | _, _ => Ok (prefix, name)
        end
    | [_] | [] =>
        Raise (ValueError
                 (lit "not enough values to unpack (expected 2, got 1)"))
    | _ =>
        Raise (ValueError (lit "too many values to unpack (expected 2)"))
    end.

(* ------------------------------------------------------------------ *)
(** * The transport and the handler monad *)

(** One [client.get(url, params=..., headers=...)]. The client settings
    (a 30 second timeout, redirects followed) are the same for every
    request and are part of the transport. *)
Record request : Type := {
  req_url : str;
  req_params : option (dict pyval);
  req_headers : dict str
}.

(** What the handlers read of an [httpx.Response]: [json] is the
    outcome of [resp.json()], which raises on a body that is not JSON. *)
Record response : Type := {
  status_code : Z;
  text : str;
  json : res pyval
}.

(** The upstream hosts, seen from one handler call: the answer to a
    request may depend on the requests issued before it. A raised
    exception is a network error or a timeout. *)
Definition transport := list request -> request -> res response.

(** A computation reads and extends the history of requests and ends
    with a value or with a raised exception. *)
Definition M (A : Type) : Type := list request -> res A * list request.

Definition ret {A} (a : A) : M A := fun h => (Ok a, h).

Definition raise {A} (e : exn) : M A := fun h => (Raise e, h).

Definition lift {A} (r : res A) : M A := fun h => (r, h).

Definition bind {A B} (m : M A) (k : A -> M B) : M B :=
  fun h =>
    match m h with
    | (Ok a, h') => k a h'
    | (Raise e, h') => (Raise e, h')
    end.

(** [try: body  except Exception as exc: handler] *)
Definition try_except {A} (body : M A) (handler : exn -> M A) : M A :=
  fun h =>
    match body h with
    | (Ok a, h') => (Ok a, h')
    | (Raise e, h') => handler e h'
    end.

Declare Scope py_scope.
Delimit Scope py_scope with py.
Notation "x <- m ;; k" := (bind m (fun x => k))
  (at level 61, m at next level, right associativity) : py_scope.

(** [await client.get(...)]: the request goes out and is recorded
    whether or not it is answered. *)
Definition client_get (net : transport) (rq : request) : M response :=
  fun h => (net h rq, h ++ [rq]).

(** [resp.raise_for_status()]: only a 2xx status passes. *)
Definition raise_for_status (resp : response) : M unit :=
  if (200 <=? status_code resp) && (status_code resp <=? 299)
  then ret tt
  else raise HTTPStatusError.

(* ------------------------------------------------------------------ *)
(** * The request helper *)

Definition ICONIFY_BASE : str := lit "https://api.iconify.design".

Definition ICONIFY_BACKUPS : list str :=
  [lit "https://api.simplesvg.com"; lit "https://api.unisvg.com"].

Definition USER_AGENT : str := lit "icon-mcp/1.0".

(** The body of the [try] of lines 44-47 for one host. *)
Definition attempt (net : transport) (host path : str)
    (params : option (dict pyval)) (expect_json : bool)
    (_headers : dict str) : M pyval :=
  (let url := host ++ path in
   resp <- client_get net {| req_url := url;
                             req_params := params;
                             req_headers := _headers |} ;;
   _ <- raise_for_status resp ;;
   if expect_json then lift (json resp) else ret (PStr (text resp)))%py.

(** The loop [for host in hosts] of lines 42-52: a caught exception is
    stored in [last_exc], which nothing reads, and the loop goes on. *)
Fixpoint for_hosts (net : transport) (hosts : list str) (path : str)
    (params : option (dict pyval)) (expect_json : bool)
    (_headers : dict str) : M pyval :=
  match hosts with
  | [] => ret PNone
  | host :: rest =>
      try_except
        (attempt net host path params expect_json _headers)
        (fun exc => for_hosts net rest path params expect_json _headers)
  end.

(** The header set of lines 31-36. *)
Definition build_headers (expect_json : bool)
    (headers : option (dict str)) : dict str :=
  let _headers :=
    [(lit "User-Agent", USER_AGENT);
     (lit "Accept",
      if expect_json then lit "application/json" else lit "image/svg+xml")]
  in
  match headers with
  | Some ((_ :: _) as h) => dict_update _headers h
  | _ => _headers
  end.

(** [_request_iconify], lines 24-52. *)
Definition _request_iconify (net : transport) (path : str)
    (params : option (dict pyval)) (expect_json : bool)
    (headers : option (dict str)) : M pyval :=
  let _headers := build_headers expect_json headers in
  let hosts := ICONIFY_BASE :: ICONIFY_BACKUPS in
  for_hosts net hosts path params expect_json _headers.

(* ------------------------------------------------------------------ *)
(** * The tool handlers *)

(** [if x:] on an optional string: set and not empty. *)
Definition provided (x : option str) : option str :=
  match x with
  | Some ((_ :: _) as s) => Some s
  | _ => None
  end.

(** [if x: params[key] = f(x)] *)
Definition set_if (key : str) (x : option pyval) (params : dict pyval)
  : dict pyval :=
  match x with
  | Some v => dict_set key v params
  | None => params
  end.

(** ** [search_icons], lines 70-115 *)

(** The local [query_kw] of lines 94-98. *)
Definition query_kw (query : str) (style : option str)
    (palette : option bool) : str :=
  let q := strip query in
  let q :=
    match style with
    | Some s =>
        if PyStr.eqb s (lit "fill") || PyStr.eqb s (lit "stroke")
        then q ++ lit " style=" ++ s
        else q
    | None => q
    end in
  match palette with
  | Some p => q ++ lit " palette=" ++ (if p then lit "true" else lit "false")
  | None => q
  end.

(** The mapping [params] of lines 100-110. *)
Definition search_params (query : str) (limit : option Z) (start : Z)
    (prefix : option str) (prefixes : option (list str))
    (category : option str) (style : option str)
    (palette : option bool) : dict pyval :=
  let params :=
    [(lit "query", PStr (query_kw query style palette));
     (lit "limit", PInt (_clamp_limit limit));
     (lit "start", PInt (Z.max 0 start))] in
  let params := set_if (lit "prefix") (option_map PStr (provided prefix))
                       params in
  let params :=
    match prefixes with
    | Some ((_ :: _) as ps) =>
        dict_set (lit "prefixes") (PStr (join (lit ",") ps)) params
    | _ => params
    end in
  set_if (lit "category") (option_map PStr (provided category)) params.

Definition SEARCH_FAILED : str :=
  lit "Unable to fetch search results or no results found.".

(** Lines 113-115: [not data or "icons" not in data] tests the
    membership only when [data] is truthy. *)
Definition search_result (data : pyval) : res pyval :=
  if negb (truthy data) then Ok (PStr SEARCH_FAILED)
  else
    match py_in (lit "icons") data with
    | Ok found => if negb found then Ok (PStr SEARCH_FAILED) else Ok data
    | Raise e => Raise e
    end.

Definition search_icons (net : transport) (query : str)
    (limit : option Z) (start : Z) (prefix : option str)
    (prefixes : option (list str)) (category : option str)
    (style : option str) (palette : option bool) : M pyval :=
  (let params := search_params query limit start prefix prefixes category
                               style palette in
   data <- _request_iconify net (lit "/search") (Some params) true None ;;
   lift (search_result data))%py.

(** ** [get_svg], lines 118-151 *)

(** [color.replace("#", "%23")] *)
Definition encode_color (color : str) : str :=
  replace 35%N (lit "%23") color.

(** The mapping [params] of lines 134-148. *)
Definition svg_params (color width height rotate flip : option str)
    (box download : bool) : dict pyval :=
  let params := [] in
  let params :=
    set_if (lit "color")
           (option_map (fun c => PStr (encode_color c)) (provided color))
           params in
  let params := set_if (lit "width") (option_map PStr (provided width))
                       params in
  let params := set_if (lit "height") (option_map PStr (provided height))
                       params in
  let params := set_if (lit "rotate") (option_map PStr (provided rotate))
                       params in
  let params := set_if (lit "flip") (option_map PStr (provided flip))
                       params in
  let params := if box then dict_set (lit "box") (PInt 1) params
                else params in
  if download then dict_set (lit "download") (PInt 1) params else params.

Definition SVG_FAILED : str := lit "Unable to fetch SVG.".

Definition get_svg (net : transport) (icon : str)
    (color width height rotate flip : option str) (box download : bool)
  : M pyval :=
  match _split_icon icon with
  | Raise (ValueError e) => ret (PStr e)
  | Raise e => raise e
  | Ok (prefix, name) =>
      (let params := svg_params color width height rotate flip box download in
       svg <- _request_iconify net
                (lit "/" ++ prefix ++ lit "/" ++ name ++ lit ".svg")
                (Some params) false None ;;
       ret (py_or svg (PStr SVG_FAILED)))%py
  end.

(** ** [get_icon_data], lines 154-163 *)

Definition ICON_DATA_FAILED : str := lit "Unable to fetch icon data.".

Definition get_icon_data (net : transport) (icon : str) : M pyval :=
  match _split_icon icon with
  | Raise (ValueError e) => ret (PStr e)
  | Raise e => raise e
  | Ok (prefix, name) =>
      (let params := [(lit "icons", PStr name)] in
       data <- _request_iconify net (lit "/" ++ prefix ++ lit ".json")
                 (Some params) true None ;;
       ret (py_or data (PStr ICON_DATA_FAILED)))%py
  end.

(** ** [list_collections], lines 166-178 *)

Definition collections_params (prefix : option str)
    (prefixes : option (list str)) : dict pyval :=
  let params := [] in
  let params := set_if (lit "prefix") (option_map PStr (provided prefix))
                       params in
  match prefixes with
  | Some ((_ :: _) as ps) =>
      dict_set (lit "prefixes") (PStr (join (lit ",") ps)) params
  | _ => params
  end.

Definition COLLECTIONS_FAILED : str := lit "Unable to fetch collections.".

Definition list_collections (net : transport) (prefix : option str)
    (prefixes : option (list str)) : M pyval :=
  (let params := collections_params prefix prefixes in
   data <- _request_iconify net (lit "/collections") (Some params) true None ;;
   ret (py_or data (PStr COLLECTIONS_FAILED)))%py.

(** ** [list_icons_in_collection], lines 181-200 *)

Definition collection_params (prefix : str)
    (include_info include_chars : bool) : dict pyval :=
  let params := [(lit "prefix", PStr prefix)] in
  let params := if include_info
                then dict_set (lit "info") (PStr (lit "1")) params
                else params in
  if include_chars then dict_set (lit "chars") (PStr (lit "1")) params
  else params.

(** The message of line 200. *)
Definition collection_failed (prefix : str) : str :=
  lit "Unable to fetch icons for collection '" ++ prefix ++ lit "'.".

Definition list_icons_in_collection (net : transport) (prefix : str)
    (include_info include_chars : bool) : M pyval :=
  (let params := collection_params prefix include_info include_chars in
   data <- _request_iconify net (lit "/collection") (Some params) true None ;;
   ret (py_or data (PStr (collection_failed prefix))))%py.

(* ------------------------------------------------------------------ *)
(** * Vocabulary of the specification *)

(** [icon] reads [p], a colon, [n], and that colon is its first one. *)
Definition cut_at_first_colon (icon p n : str) : Prop :=
  icon = p ++ colon :: n /\ ~ In colon p.

(** An icon reference is malformed when it has no colon, or when the
    part before its first colon or the part after it is empty. *)
Definition malformed (icon : str) : Prop :=
  ~ In colon icon \/
  exists p n, cut_at_first_colon icon p n /\ (p = [] \/ n = []).

(** The request that one call of the helper sends to [host]. *)
Definition request_to (path : str) (params : option (dict pyval))
    (_headers : dict str) (host : str) : request :=
  {| req_url := host ++ path;
     req_params := params;
     req_headers := _headers |}.

(** How the attempt at [host] ends when it is made after the requests
    of [h]: with the value the helper returns, or with the exception
    the helper catches. *)
Definition attempt_outcome (net : transport) (path : str)
    (params : option (dict pyval)) (expect_json : bool)
    (_headers : dict str) (h : list request) (host : str) : res pyval :=
  fst (attempt net host path params expect_json _headers h).

(** The attempts at [hosts], made one after the other from the history
    [h], all fail. *)
Fixpoint all_fail (net : transport) (path : str)
    (params : option (dict pyval)) (expect_json : bool)
    (_headers : dict str) (h : list request) (hosts : list str) : Prop :=
  match hosts with
  | [] => True
  | host :: rest =>
      (exists e,
          attempt_outcome net path params expect_json _headers h host
          = Raise e) /\
      all_fail net path params expect_json _headers
               (h ++ [request_to path params _headers host]) rest
  end.

(** The requests of a call that goes through every host. *)
Definition requests_to_all_hosts (path : str)
    (params : option (dict pyval)) (expect_json : bool) : list request :=
  List.map (request_to path params (build_headers expect_json None))
           (ICONIFY_BASE :: ICONIFY_BACKUPS).

(** Every host fails a call that a handler makes from the history [h]. *)
Definition all_hosts_fail (net : transport) (path : str)
    (params : option (dict pyval)) (expect_json : bool)
    (h : list request) : Prop :=
  all_fail net path params expect_json (build_headers expect_json None) h
           (ICONIFY_BASE :: ICONIFY_BACKUPS).

(** [data] is a mapping and has the key [key]. *)
Definition mapping_with_key (key : str) (data : pyval) : Prop :=
  exists d, data = PDict d /\ In key (dict_keys d).

Definition is_mapping (data : pyval) : Prop := exists d, data = PDict d.

(** The handler [op], which requests [path] with [params], answers
    [msg] both to a payload that is falsy and to the failure of every
    host. *)
Definition falsy_as_failure (op : transport -> M pyval) (path : str)
    (params : dict pyval) (expect_json : bool) (msg : str) : Prop :=
  (forall net h data h',
      _request_iconify net path (Some params) expect_json None h
      = (Ok data, h') ->
      truthy data = false ->
      op net h = (Ok (PStr msg), h')) /\
  (forall net h,
      all_hosts_fail net path (Some params) expect_json h ->
      op net h
      = (Ok (PStr msg),
         h ++ requests_to_all_hosts path (Some params) expect_json)).

(** The query parameter [key] is part of [params]. *)
Definition sent (params : dict pyval) (key : str) : bool :=
  match dict_get key params with
  | Some _ => true
  | None => false
  end.

(** What the caller of the helper has set for the header [key]. *)
Definition caller_header (headers : option (dict str)) (key : str)
  : option str :=
  match headers with
  | Some h => dict_get key h
  | None => None
  end.

(** A JSON value that is a number or a truth value. *)
Definition is_scalar (data : pyval) : Prop :=
  match data with
  | PBool _ | PInt _ | PFloat _ => True
  | _ => False
  end.

(** The handler [op], which requests [path] with [params], returns a
    truthy payload as it is. *)
Definition passes_truthy (op : transport -> M pyval) (path : str)
    (params : dict pyval) (expect_json : bool) : Prop :=
  forall net h data h',
    _request_iconify net path (Some params) expect_json None h
    = (Ok data, h') ->
    truthy data = true ->
    op net h = (Ok data, h').

(** The handler [op] keeps the history and adds to it the requests for
    [path] with [params] to the first hosts of the list, at least one
    and at most three. *)
Definition sends_to_hosts (op : transport -> M pyval) (path : str)
    (params : dict pyval) (expect_json : bool) : Prop :=
  forall net h,
  exists m, (1 <= m <= 3)%nat /\
    snd (op net h)
    = h ++ firstn m (requests_to_all_hosts path (Some params) expect_json).

(** The answer of the hosts to a request does not depend on the
    requests made before. *)
Definition stateless (net : transport) : Prop :=
  forall h h' rq, net h rq = net h' rq.

(** The computation [m] does the same from every history: it returns
    what it returns from the empty one and adds the same requests. *)
Definition history_free {A} (m : M A) : Prop :=
  forall h, m h = (fst (m []), h ++ snd (m [])).

(** What the helper can see of the answer to one request: the value of
    a success, or that it is a failure. *)
Definition success_value (expect_json : bool) (r : res response)
  : option pyval :=
  match r with
  | Ok resp =>
      if (200 <=? status_code resp) && (status_code resp <=? 299) then
        if expect_json then
          match json resp with Ok v => Some v | Raise _ => None end
        else Some (PStr (text resp))
      else None
  | Raise _ => None
  end.

(** ** Sample transports *)

Definition sample_search_payload : pyval :=
  PDict [(lit "icons", PList [PStr (lit "mdi:home")]); (lit "total", PInt 1)].

(** Every host answers 200 with the same body. *)
Definition always_answers (body : str) (payload : res pyval) : transport :=
  fun _ _ => Ok {| status_code := 200; text := body; json := payload |}.

(** No host can be reached. *)
Definition all_down : transport := fun _ _ => Raise TransportError.

(** The primary host cannot be reached, the backups answer. *)
Definition primary_down (body : str) (payload : res pyval) : transport :=
  fun _ rq =>
    if startswith ICONIFY_BASE (req_url rq) then Raise TransportError
    else Ok {| status_code := 200; text := body; json := payload |}.

(** The primary host answers with the status [code] and an empty body,
    the backups answer 200. *)
Definition primary_status (code : Z) (body : str) (payload : res pyval)
  : transport :=
  fun _ rq =>
    if startswith ICONIFY_BASE (req_url rq)
    then Ok {| status_code := code; text := []; json := Ok PNone |}
    else Ok {| status_code := 200; text := body; json := payload |}.

(* ================================================================== *)
(** * Properties *)

(** ** Strings *)

Module PyStrFacts.

Lemma eqb_eq (a b : str) : PyStr.eqb a b = true <-> a = b.
Proof.
  revert b. induction a as [|x a IH]; intros [|y b]; simpl;
    try (split; [discriminate | congruence]); [tauto|].
  rewrite andb_true_iff, N.eqb_eq, IH. split.
  - intros [-> ->]. reflexivity.
  - intros [= -> ->]. auto.
Qed.

Lemma eqb_refl (a : str) : PyStr.eqb a a = true.
Proof. apply eqb_eq. reflexivity. Qed.

Lemma eqb_neq (a b : str) : PyStr.eqb a b = false <-> a <> b.
Proof.
  rewrite <- eqb_eq. destruct (PyStr.eqb a b); split;
    intros; congruence.
Qed.

(** [lstrip] removes a run of white space and stops at the first
    character that is none. *)
Lemma lstrip_spec (s : str) :
  exists ws, s = ws ++ lstrip s /\ forallb isspace ws = true /\
             (forall c r, lstrip s = c :: r -> isspace c = false).
Proof.
  induction s as [|c s (ws & E & Hws & Hhd)].
  - exists []. repeat split. discriminate.
  - cbn [lstrip]. destruct (isspace c) eqn:Hc.
    + exists (c :: ws). split; [cbn; congruence|].
      split; [cbn; rewrite Hc; exact Hws | exact Hhd].
    + exists []. repeat split. intros c' r [= <- _]. exact Hc.
Qed.

(** [strip] removes white space at both ends and nothing else. *)
Lemma strip_spec (s : str) :
  exists a b, s = a ++ strip s ++ b /\
              forallb isspace a = true /\ forallb isspace b = true.
Proof.
  unfold strip, rstrip.
  destruct (lstrip_spec s) as (a & Ea & Ha & _).
  destruct (lstrip_spec (rev (lstrip s))) as (b & Eb & Hb & _).
  exists a, (rev b). split; [|split; [exact Ha|]].
  - rewrite <- rev_app_distr, <- Eb, rev_involutive. exact Ea.
  - rewrite forallb_forall in *. intros c Hc. apply Hb.
    apply in_rev. exact Hc.
Qed.

(** A needle of one character is found exactly when it occurs. *)
Lemma contains_char (c : char) (s : str) :
  contains [c] s = true <-> In c s.
Proof.
  induction s as [|b s IH]; simpl.
  - split; [discriminate | tauto].
  - rewrite andb_true_r, orb_true_iff, IH, N.eqb_eq.
    split; intros [H|H]; auto.
Qed.

Lemma contains_char_false (c : char) (s : str) :
  contains [c] s = false <-> ~ In c s.
Proof.
  rewrite <- contains_char. destruct (contains [c] s); split;
    intros; congruence.
Qed.

Lemma split_zero (sep : char) (s : str) : split sep 0 s = [s].
Proof. destruct s; reflexivity. Qed.

(** With [maxsplit = 1] the cut is at the first separator. *)
Lemma split_once (sep : char) (p n : str) :
  ~ In sep p -> split sep 1 (p ++ sep :: n) = [p; n].
Proof.
  induction p as [|c p IH]; intros Hp.
  - simpl. rewrite N.eqb_refl, split_zero. reflexivity.
  - change ((c :: p) ++ sep :: n) with (c :: (p ++ sep :: n)).
    assert (Hc : N.eqb c sep = false).
    { apply N.eqb_neq. intros ->. apply Hp. left. reflexivity. }
    cbn [split]. rewrite Hc, IH; [reflexivity|].
    intros Hin. apply Hp. right. exact Hin.
Qed.

Lemma split_absent (sep : char) (k : nat) (s : str) :
  ~ In sep s -> split sep k s = [s].
Proof.
  destruct k as [|k]; [intros _; apply split_zero|].
  induction s as [|c s IH]; intros Hs; [reflexivity|].
  assert (Hc : N.eqb c sep = false).
  { apply N.eqb_neq. intros ->. apply Hs. left. reflexivity. }
  cbn [split]. rewrite Hc, IH; [reflexivity|].
  intros Hin. apply Hs. right. exact Hin.
Qed.

(** An occurrence has a first occurrence. *)
Lemma first_occurrence (c : char) (s : str) :
  In c s -> exists p n, s = p ++ c :: n /\ ~ In c p.
Proof.
  induction s as [|b s IH]; intros Hin; [destruct Hin|].
  destruct (N.eq_dec b c) as [->|Hbc].
  - exists [], s. split; [reflexivity | intros []].
  - destruct Hin as [Hb|Hin]; [congruence|].
    destruct (IH Hin) as (p & n & -> & Hp).
    exists (b :: p), n. split; [reflexivity|].
    intros [H|H]; [congruence | exact (Hp H)].
Qed.

(** The cut at the first occurrence is unique. *)
Lemma first_occurrence_unique (c : char) (p n p' n' : str) :
  p ++ c :: n = p' ++ c :: n' -> ~ In c p -> ~ In c p' ->
  p = p' /\ n = n'.
Proof.
  revert p'. induction p as [|a p IH]; intros [|a' p'] E Hp Hp'.
  - injection E as ->. auto.
  - injection E as <- _. exfalso. apply Hp'. left. reflexivity.
  - injection E as -> _. exfalso. apply Hp. left. reflexivity.
  - injection E as -> E.
    destruct (IH p' E) as [-> ->]; auto.
    + intros H. apply Hp. right. exact H.
    + intros H. apply Hp'. right. exact H.
Qed.

Lemma replace_absent (old : char) (new s : str) :
  ~ In old s -> replace old new s = s.
Proof.
  induction s as [|c s IH]; intros Hs; [reflexivity|].
  unfold replace in *. simpl.
  assert (Hc : N.eqb c old = false).
  { apply N.eqb_neq. intros ->. apply Hs. left. reflexivity. }
  rewrite Hc. simpl. f_equal. apply IH.
  intros H. apply Hs. right. exact H.
Qed.

Lemma replace_clears (old : char) (new s : str) :
  ~ In old new -> ~ In old (replace old new s).
Proof.
  intros Hnew. unfold replace. rewrite in_flat_map.
  intros (c & _ & Hc). destruct (N.eqb c old) eqn:E.
  - exact (Hnew Hc).
  - destruct Hc as [Hc|[]]. subst c. rewrite N.eqb_refl in E.
    discriminate.
Qed.

End PyStrFacts.

Import PyStrFacts.

(** ** The limit *)

(** C3. [_clamp_limit] gives 64 for an unset limit and, for an integer
    [n], [n] clamped into the interval from 32 to 999: [n] itself inside
    the interval, 32 below it, 999 above it; so 10 gives 32, 5000 gives
    999 and 64 gives 64. *)
Theorem clamp_limit_range :
  _clamp_limit None = 64 /\
  (forall n : Z,
      32 <= _clamp_limit (Some n) <= 999 /\
      (32 <= n <= 999 -> _clamp_limit (Some n) = n) /\
      (n < 32 -> _clamp_limit (Some n) = 32) /\
      (n > 999 -> _clamp_limit (Some n) = 999)) /\
  _clamp_limit (Some 10) = 32 /\
  _clamp_limit (Some 5000) = 999 /\
  _clamp_limit (Some 64) = 64.
Proof.
  repeat split; try reflexivity; unfold _clamp_limit; lia.
Qed.

Lemma clamp_limit_range_witness :
  _clamp_limit (Some 500) = 500 /\
  _clamp_limit (Some (-7)) = 32 /\
  _clamp_limit (Some 1000) = 999.
Proof.
  destruct clamp_limit_range as (_ & H & _).
  split; [|split].
  - apply (H 500). lia.
  - apply (H (-7)). lia.
  - apply (H 1000). lia.
Defined.

(** ** Icon references *)

Lemma lit_colon : lit ":" = [colon].
Proof. reflexivity. Qed.

Lemma split_icon_no_colon (icon : str) :
  ~ In colon icon ->
  _split_icon icon =
  Raise (ValueError
           (lit "Icon must be in 'prefix:name' format, e.g., 'mdi:home'")).
Proof.
  intros H. unfold _split_icon. rewrite lit_colon.
  apply contains_char_false in H. rewrite H. reflexivity.
Qed.

Lemma split_icon_cut (icon p n : str) :
  cut_at_first_colon icon p n ->
  _split_icon icon =
  match p, n with
  | [], _ | _, [] =>
      Raise (ValueError (lit "Invalid icon, expected 'prefix:name'"))
  | _, _ => Ok (p, n)
  end.
Proof.
  intros [-> Hp]. unfold _split_icon. rewrite lit_colon.
  assert (Hin : contains [colon] (p ++ colon :: n) = true).
  { apply contains_char. apply in_or_app. right. left. reflexivity. }
  rewrite Hin, split_once by exact Hp. reflexivity.
Qed.

Lemma split_icon_well_formed (p n : str) :
  p <> [] -> n <> [] -> ~ In colon p ->
  _split_icon (p ++ colon :: n) = Ok (p, n).
Proof.
  intros Hp Hn Hc. rewrite (split_icon_cut _ p n) by (split; auto).
  destruct p; [congruence|]. destruct n; [congruence|]. reflexivity.
Qed.

Lemma split_icon_raises_value_error (icon : str) (e : exn) :
  _split_icon icon = Raise e -> exists msg, e = ValueError msg.
Proof.
  unfold _split_icon. destruct (negb _).
  - intros [= <-]. eauto.
  - destruct (split colon 1 icon) as [|a [|b [|c l]]];
      try (intros [= <-]; eauto).
    destruct a, b; intros [= <-] || discriminate; eauto.
Qed.

Lemma malformed_raises (icon : str) :
  malformed icon -> exists msg, _split_icon icon = Raise (ValueError msg).
Proof.
  intros [H | (p & n & Hcut & Hempty)].
  - rewrite split_icon_no_colon by exact H. eauto.
  - rewrite (split_icon_cut _ _ _ Hcut).
    destruct Hempty as [-> | ->]; [eauto|]. destruct p; eauto.
Qed.

Lemma raises_malformed (icon : str) (e : exn) :
  _split_icon icon = Raise e -> malformed icon.
Proof.
  intros H. destruct (in_dec N.eq_dec colon icon) as [Hin|Hout].
  - destruct (first_occurrence _ _ Hin) as (p & n & E & Hp).
    right. exists p, n. split; [split; assumption|].
    rewrite (split_icon_cut icon p n) in H by (split; assumption).
    destruct p; [left; reflexivity|]. destruct n; [right; reflexivity|].
    discriminate.
  - left. exact Hout.
Qed.

(** C4. [_split_icon] raises its validation error exactly on a
    malformed reference: one without a colon, or with nothing before
    its first colon, or with nothing after it. It raises nothing else,
    and on every other string it returns the part before the first
    colon and the part after it; "mdi:home" gives ("mdi", "home"), and
    "mdihome", ":home" and "mdi:" fail. *)
Theorem split_icon_fails_iff_malformed :
  (forall icon : str,
      ((exists msg, _split_icon icon = Raise (ValueError msg)) <->
       malformed icon) /\
      (forall e, _split_icon icon = Raise e -> exists msg, e = ValueError msg) /\
      (~ malformed icon ->
       exists p n, cut_at_first_colon icon p n /\
                   _split_icon icon = Ok (p, n)) /\
      (forall p n, cut_at_first_colon icon p n -> p <> [] -> n <> [] ->
                   _split_icon icon = Ok (p, n))) /\
  _split_icon (lit "mdi:home") = Ok (lit "mdi", lit "home") /\
  (exists msg, _split_icon (lit "mdihome") = Raise (ValueError msg)) /\
  (exists msg, _split_icon (lit ":home") = Raise (ValueError msg)) /\
  (exists msg, _split_icon (lit "mdi:") = Raise (ValueError msg)).
Proof.
  split; [|repeat split; eexists; reflexivity].
  intros icon. split; [|split; [|split]].
  - split; [intros [msg H]; exact (raises_malformed _ _ H)
           | apply malformed_raises].
  - apply split_icon_raises_value_error.
  - intros Hwf. destruct (_split_icon icon) as [[p n]|e] eqn:E.
    + destruct (in_dec N.eq_dec colon icon) as [Hin|Hout].
      * destruct (first_occurrence _ _ Hin) as (p' & n' & E' & Hp').
        exists p', n'. split; [split; assumption|].
        rewrite (split_icon_cut icon p' n') in E by (split; assumption).
        destruct p'; [discriminate|]. destruct n'; [discriminate|].
        rewrite E. reflexivity.
      * rewrite split_icon_no_colon in E by exact Hout. discriminate.
    + exfalso. exact (Hwf (raises_malformed _ _ E)).
  - intros p n [-> Hp] Hpe Hne. apply split_icon_well_formed; assumption.
Qed.

Lemma split_icon_fails_iff_malformed_witness :
  _split_icon (lit "tabler:arrow-left") =
  Ok (lit "tabler", lit "arrow-left").
Proof.
  destruct split_icon_fails_iff_malformed as (H & _).
  destruct (H (lit "tabler:arrow-left")) as (_ & _ & _ & Hok).
  apply Hok.
  - split; [reflexivity|]. vm_compute. intuition discriminate.
  - discriminate.
  - discriminate.
Defined.

(** C10. [_split_icon] cuts at the first colon only: whenever the
    parts on both sides of the first colon are not empty it succeeds,
    whatever the second part holds, further colons included; "a:b:c"
    gives ("a", "b:c"). *)
Theorem split_icon_first_colon_only :
  (forall p n : str,
      p <> [] -> n <> [] -> ~ In colon p ->
      _split_icon (p ++ colon :: n) = Ok (p, n)) /\
  (forall p m k : str,
      p <> [] -> ~ In colon p ->
      _split_icon (p ++ colon :: m ++ colon :: k) =
      Ok (p, m ++ colon :: k)) /\
  _split_icon (lit "a:b:c") = Ok (lit "a", lit "b:c").
Proof.
  split; [|split].
  - apply split_icon_well_formed.
  - intros p m k Hp Hc. apply split_icon_well_formed; auto.
    destruct m; discriminate.
  - reflexivity.
Qed.

Lemma split_icon_first_colon_only_witness :
  _split_icon (lit "fa:solid:user:x") = Ok (lit "fa", lit "solid:user:x").
Proof.
  destruct split_icon_first_colon_only as (H & _).
  apply (H (lit "fa") (lit "solid:user:x")).
  - discriminate.
  - discriminate.
  - vm_compute. intuition discriminate.
Defined.

(** ** The request helper *)

Section Requester.
Variable net : transport.
Variable path : str.
Variable params : option (dict pyval).
Variable expect_json : bool.
Variable _headers : dict str.

Let rq := request_to path params _headers.
Let outcome := attempt_outcome net path params expect_json _headers.
Let loop := fun hosts => for_hosts net hosts path params expect_json _headers.

(** An attempt sends exactly one request, however it ends. *)
Lemma attempt_history (host : str) (h : list request) :
  snd (attempt net host path params expect_json _headers h)
  = h ++ [rq host].
Proof.
  unfold attempt, bind, client_get, raise_for_status, lift, ret, raise.
  fold (rq host). subst rq. cbv beta.
  destruct (net h _) as [resp|e]; [|reflexivity].
  destruct (_ && _); [|reflexivity].
  destruct expect_json; [destruct (json resp)|]; reflexivity.
Qed.

(** An attempt succeeds exactly on an answer with a 2xx status whose
    body, when JSON is expected, parses; its value is the parsed body,
    or else the text of the answer. *)
Lemma attempt_ok_iff (host : str) (h : list request) (v : pyval) :
  outcome h host = Ok v <->
  exists resp,
    net h (rq host) = Ok resp /\
    200 <= status_code resp <= 299 /\
    (if expect_json then json resp = Ok v else v = PStr (text resp)).
Proof.
  subst outcome rq. unfold attempt_outcome, attempt, bind, client_get,
    raise_for_status, lift, ret, raise, request_to. cbv beta.
  destruct (net h _) as [resp|e]; cbn [fst].
  - destruct (_ && _) eqn:Hs.
    + apply andb_true_iff in Hs. destruct Hs as [H1 H2].
      apply Z.leb_le in H1, H2. split.
      * intros H. exists resp. split; [reflexivity|]. split; [lia|].
        destruct expect_json; cbn in H; [exact H | congruence].
      * intros (resp' & [= <-] & _ & H).
        destruct expect_json; cbn; [exact H | congruence].
    + split; [discriminate|]. intros (resp' & [= <-] & Hr & _).
      apply andb_false_iff in Hs.
      destruct Hs as [Hs|Hs]; apply Z.leb_gt in Hs; lia.
  - split; [discriminate|]. intros (resp' & Hr & _). discriminate.
Qed.

Lemma loop_success (host : str) (rest : list str) (h : list request)
    (v : pyval) :
  outcome h host = Ok v ->
  loop (host :: rest) h = (Ok v, h ++ [rq host]).
Proof.
  subst outcome loop. unfold attempt_outcome. cbn [for_hosts].
  unfold try_except. intros H. pose proof (attempt_history host h) as Hh.
  destruct (attempt _ _ _ _ _ _ h) as [[a|e] h']; cbn in *; congruence.
Qed.

Lemma loop_failure (host : str) (rest : list str) (h : list request)
    (e : exn) :
  outcome h host = Raise e ->
  loop (host :: rest) h = loop rest (h ++ [rq host]).
Proof.
  subst outcome loop. unfold attempt_outcome. cbn [for_hosts].
  unfold try_except. intros H. pose proof (attempt_history host h) as Hh.
  destruct (attempt _ _ _ _ _ _ h) as [[a|e'] h']; cbn in *;
    congruence.
Qed.

(** Failed attempts are passed over in the order of the list. *)
Lemma loop_skip (pre rest : list str) (h : list request) :
  all_fail net path params expect_json _headers h pre ->
  loop (pre ++ rest) h = loop rest (h ++ List.map rq pre).
Proof.
  revert h. induction pre as [|host pre IH]; intros h Hf.
  - cbn. rewrite app_nil_r. reflexivity.
  - destruct Hf as [[e He] Hf]. fold (rq host) in Hf.
    cbn [app List.map].
    rewrite (loop_failure _ _ _ _ He), (IH _ Hf), <- app_assoc.
    reflexivity.
Qed.

Lemma loop_first_success (pre : list str) (host : str)
    (post : list str) (h : list request) (v : pyval) :
  all_fail net path params expect_json _headers h pre ->
  outcome (h ++ List.map rq pre) host = Ok v ->
  loop (pre ++ host :: post) h
  = (Ok v, h ++ List.map rq (pre ++ [host])).
Proof.
  intros Hf Hv. rewrite (loop_skip _ _ _ Hf), (loop_success _ _ _ _ Hv).
  rewrite map_app, app_assoc. reflexivity.
Qed.

Lemma loop_all_fail (hosts : list str) (h : list request) :
  all_fail net path params expect_json _headers h hosts ->
  loop hosts h = (Ok PNone, h ++ List.map rq hosts).
Proof.
  intros Hf. rewrite <- (app_nil_r hosts) at 1.
  rewrite (loop_skip _ _ _ Hf). reflexivity.
Qed.

(** The loop never ends with an exception, and the requests it has
    sent are those to a non-empty initial segment of the hosts. *)
Lemma loop_total (hosts : list str) (h : list request) :
  exists v m,
    loop hosts h = (Ok v, h ++ List.map rq (firstn m hosts)) /\
    (m <= List.length hosts)%nat /\ (hosts <> [] -> 0 < m)%nat.
Proof.
  revert h. induction hosts as [|host rest IH]; intros h.
  - exists PNone, 0%nat. cbn. rewrite app_nil_r.
    split; [reflexivity|]. split; [lia | congruence].
  - destruct (outcome h host) as [v|e] eqn:E.
    + exists v, 1%nat. rewrite (loop_success _ _ _ _ E).
      cbn [firstn List.map List.length].
      split; [reflexivity|]. split; lia.
    + destruct (IH (h ++ [rq host])) as (v & m & Hl & Hm & _).
      exists v, (S m). rewrite (loop_failure _ _ _ _ E), Hl.
      rewrite <- app_assoc. cbn [firstn List.map List.length app].
      split; [reflexivity|]. split; lia.
Qed.

End Requester.

(** C1. One call of [_request_iconify] goes through the primary host
    and then the backups in their listed order. It never raises, and
    the requests it has sent are those to the first [m] hosts, in that
    order, for some [m] from 1 to 3. The first attempt that succeeds
    gives the result and is the last request sent; an attempt succeeds
    on a 2xx answer, with the parsed body when JSON is expected and
    with the text of the answer otherwise. When the three attempts
    fail the result is [None]. *)
Theorem request_iconify_fallback
    (net : transport) (path : str) (params : option (dict pyval))
    (expect_json : bool) (headers : option (dict str))
    (h : list request) :
  let hosts := ICONIFY_BASE :: ICONIFY_BACKUPS in
  let hdrs := build_headers expect_json headers in
  let rq := request_to path params hdrs in
  let reqs := List.map rq hosts in
  let outcome := fun k =>
    attempt_outcome net path params expect_json hdrs
                    (h ++ firstn k reqs) (nth k hosts []) in
  let run := _request_iconify net path params expect_json headers h in
  (exists v m, run = (Ok v, h ++ firstn m reqs) /\ (1 <= m <= 3)%nat) /\
  (forall k v,
      (k < 3)%nat ->
      (forall i, (i < k)%nat -> exists e, outcome i = Raise e) ->
      outcome k = Ok v ->
      run = (Ok v, h ++ firstn (S k) reqs)) /\
  (forall k v,
      outcome k = Ok v <->
      exists resp,
        net (h ++ firstn k reqs) (rq (nth k hosts [])) = Ok resp /\
        200 <= status_code resp <= 299 /\
        (if expect_json then json resp = Ok v
         else v = PStr (text resp))) /\
  ((forall i, (i < 3)%nat -> exists e, outcome i = Raise e) ->
   run = (Ok PNone, h ++ reqs)).
Proof.
  intros hosts hdrs rq reqs outcome run.
  assert (Hrun : run = for_hosts net hosts path params expect_json hdrs h)
    by reflexivity.
  split; [|split; [|split]].
  - destruct (loop_total net path params expect_json hdrs hosts h)
      as (v & m & Hl & Hm & Hpos).
    exists v, m. rewrite Hrun, Hl. subst reqs rq.
    rewrite firstn_map. split; [reflexivity|].
    cbn [List.length hosts ICONIFY_BACKUPS] in Hm.
    assert (0 < m)%nat by (apply Hpos; discriminate). lia.
  - intros k v Hk Hfail Hv. rewrite Hrun.
    assert (H0 : (0 < k)%nat -> exists e, outcome 0%nat = Raise e)
      by (intros; apply Hfail; lia).
    assert (H1 : (1 < k)%nat -> exists e, outcome 1%nat = Raise e)
      by (intros; apply Hfail; lia).
    subst outcome. cbv beta in *.
    destruct k as [|[|[|k]]]; [| | |lia].
    + apply (loop_first_success net path params expect_json hdrs []);
        [exact I|].
      cbn [List.map app]. rewrite app_nil_r.
      cbn [firstn] in Hv. rewrite app_nil_r in Hv. exact Hv.
    + apply (loop_first_success net path params expect_json hdrs
               [ICONIFY_BASE]); [|exact Hv].
      split; [|exact I].
      specialize (H0 ltac:(lia)). cbn [firstn] in H0.
      rewrite app_nil_r in H0. exact H0.
    + apply (loop_first_success net path params expect_json hdrs
               [ICONIFY_BASE; lit "https://api.simplesvg.com"]);
        [|exact Hv].
      split; [|split; [|exact I]].
      * specialize (H0 ltac:(lia)). cbn [firstn] in H0.
        rewrite app_nil_r in H0. exact H0.
      * exact (H1 ltac:(lia)).
  - intros k v. subst outcome. cbv beta.
    apply attempt_ok_iff.
  - intros Hfail. rewrite Hrun.
    apply (loop_all_fail net path params expect_json hdrs hosts h).
    pose proof (Hfail 0%nat ltac:(lia)) as H0.
    pose proof (Hfail 1%nat ltac:(lia)) as H1.
    pose proof (Hfail 2%nat ltac:(lia)) as H2.
    subst outcome. cbv beta in *. cbn [firstn] in H0.
    rewrite app_nil_r in H0.
    split; [exact H0|]. split; [exact H1|]. split; [|exact I].
    rewrite <- app_assoc. exact H2.
Qed.

Lemma request_iconify_fallback_witness :
  _request_iconify (primary_down [] (Ok sample_search_payload))
                   (lit "/search") None true None []
  = (Ok sample_search_payload,
     List.map (request_to (lit "/search") None (build_headers true None))
              [ICONIFY_BASE; lit "https://api.simplesvg.com"]).
Proof.
  destruct (request_iconify_fallback
              (primary_down [] (Ok sample_search_payload))
              (lit "/search") None true None []) as (_ & H & _).
  apply (H 1%nat sample_search_payload).
  - lia.
  - intros i Hi. assert (i = 0%nat) as -> by lia.
    exists TransportError. reflexivity.
  - reflexivity.
Defined.

(** ** Mappings *)

Section DictFacts.
Context {V : Type}.
Implicit Types (d : dict V) (k : str) (v : V).

Lemma dict_get_set_eq k v d : dict_get k (dict_set k v d) = Some v.
Proof.
  induction d as [|[k' w] d IH]; cbn.
  - rewrite eqb_refl. reflexivity.
  - destruct (PyStr.eqb k' k) eqn:E; cbn; rewrite E; auto.
Qed.

Lemma dict_get_set_neq k k' v d :
  k' <> k -> dict_get k (dict_set k' v d) = dict_get k d.
Proof.
  intros Hne. induction d as [|[k0 w] d IH]; cbn.
  - apply eqb_neq in Hne. rewrite Hne. reflexivity.
  - destruct (PyStr.eqb k0 k') eqn:E; cbn.
    + apply eqb_eq in E. subst k0. apply eqb_neq in Hne.
      rewrite Hne. reflexivity.
    + rewrite IH. reflexivity.
Qed.

Lemma dict_keys_set k v d :
  incl (dict_keys (dict_set k v d)) (k :: dict_keys d).
Proof.
  induction d as [|[k0 w] d IH]; cbn.
  - apply incl_refl.
  - destruct (PyStr.eqb k0 k); cbn.
    + apply incl_tl, incl_refl.
    + intros x [<-|Hx]; [right; left; reflexivity|].
      destruct (IH x Hx) as [<-|H]; [left | right; right]; auto.
Qed.

Lemma dict_get_in_keys k v d :
  dict_get k d = Some v -> In k (dict_keys d).
Proof.
  induction d as [|[k0 w] d IH]; cbn; [discriminate|].
  destruct (PyStr.eqb k0 k) eqn:E.
  - apply eqb_eq in E. auto.
  - auto.
Qed.
End DictFacts.

Lemma dict_get_set_if_eq (k : str) (x : option pyval) (d : dict pyval) :
  dict_get k (set_if k x d) =
  match x with Some v => Some v | None => dict_get k d end.
Proof. destruct x; cbn; [apply dict_get_set_eq | reflexivity]. Qed.

Lemma dict_get_set_if_neq (k k' : str) (x : option pyval)
    (d : dict pyval) :
  k' <> k -> dict_get k (set_if k' x d) = dict_get k d.
Proof. intros H. destruct x; cbn; [apply dict_get_set_neq, H | reflexivity]. Qed.

Lemma dict_keys_set_if (k : str) (x : option pyval) (d : dict pyval) :
  incl (dict_keys (set_if k x d)) (k :: dict_keys d).
Proof. destruct x; cbn; [apply dict_keys_set | apply incl_tl, incl_refl]. Qed.

Lemma has_key_in_keys (k : str) (d : dict pyval) :
  has_key k d = true <-> In k (dict_keys d).
Proof.
  unfold has_key, dict_keys. rewrite existsb_exists, in_map_iff.
  split.
  - intros (kv & Hin & E). apply eqb_eq in E. eauto.
  - intros (kv & E & Hin). exists kv. split; [exact Hin|].
    apply eqb_eq. exact E.
Qed.

(** Two literals of the source differ. *)
Ltac lit_neq :=
  let E := fresh "E" in intro E; vm_compute in E; discriminate E.

(** Reads a key of a mapping built by assignments to literal keys. *)
Ltac dict_read :=
  repeat first
    [ rewrite dict_get_set_if_eq
    | rewrite dict_get_set_eq
    | rewrite dict_get_set_if_neq by lit_neq
    | rewrite dict_get_set_neq by lit_neq ].

(** ** Query parameters of the search *)

Lemma provided_some (x : option str) (s : str) :
  provided x = Some s -> x = Some s /\ s <> [].
Proof.
  destruct x as [[|c r]|]; cbn; intros H; try discriminate H.
  injection H as E. subst s. split; [reflexivity | discriminate].
Qed.

Lemma search_params_keys (query : str) (limit : option Z) (start : Z)
    (prefix : option str) (prefixes : option (list str))
    (category style : option str) (palette : option bool) :
  incl (dict_keys (search_params query limit start prefix prefixes
                                 category style palette))
       [lit "query"; lit "limit"; lit "start"; lit "prefix";
        lit "prefixes"; lit "category"].
Proof.
  unfold search_params. intros k Hk.
  apply dict_keys_set_if in Hk.
  destruct Hk as [<-|Hk]; [cbn [In]; tauto|].
  assert (Hk' : In k (lit "prefixes" ::
                      dict_keys (set_if (lit "prefix")
                                   (option_map PStr (provided prefix))
                                   [(lit "query",
                                     PStr (query_kw query style palette));
                                    (lit "limit", PInt (_clamp_limit limit));
                                    (lit "start", PInt (Z.max 0 start))]))).
  { destruct prefixes as [[|p ps]|];
      [right; exact Hk | apply dict_keys_set in Hk; exact Hk
       | right; exact Hk]. }
  clear Hk. destruct Hk' as [<-|Hk]; [cbn [In]; tauto|].
  apply dict_keys_set_if in Hk.
  destruct Hk as [<-|Hk]; [cbn [In]; tauto|].
  cbn [dict_keys List.map fst In] in Hk. cbn [In]. tauto.
Qed.

(** C5. [search_icons] sends no [style] and no [palette] parameter: the
    only keys of its mapping are [query], [limit], [start], [prefix],
    [prefixes] and [category]. The [query] parameter is the stripped
    query text, followed by " style=" and the style when the style is
    "fill" or "stroke", followed by " palette=true" or " palette=false"
    when a palette is given; "home" with stroke and a false palette
    gives "home style=stroke palette=false". *)
Theorem search_keywords_in_query
    (query : str) (limit : option Z) (start : Z) (prefix : option str)
    (prefixes : option (list str)) (category style : option str)
    (palette : option bool) :
  let params := search_params query limit start prefix prefixes category
                              style palette in
  dict_get (lit "style") params = None /\
  dict_get (lit "palette") params = None /\
  incl (dict_keys params)
       [lit "query"; lit "limit"; lit "start"; lit "prefix";
        lit "prefixes"; lit "category"] /\
  dict_get (lit "query") params
  = Some (PStr (query_kw query style palette)) /\
  (forall s, style = Some s -> s = lit "fill" \/ s = lit "stroke" ->
             query_kw query style None = strip query ++ lit " style=" ++ s) /\
  ((forall s, style = Some s -> s <> lit "fill" /\ s <> lit "stroke") ->
   query_kw query style None = strip query) /\
  (forall b : bool,
      query_kw query style (Some b)
      = query_kw query style None ++ lit " palette=" ++
        (if b then lit "true" else lit "false")) /\
  query_kw (lit "home") (Some (lit "stroke")) (Some false)
  = lit "home style=stroke palette=false".
Proof.
  intros params.
  pose proof (search_params_keys query limit start prefix prefixes
                                 category style palette) as Hkeys.
  fold params in Hkeys.
  assert (Habsent : forall k v,
             ~ In k [lit "query"; lit "limit"; lit "start"; lit "prefix";
                     lit "prefixes"; lit "category"] ->
             dict_get k params <> Some v).
  { intros k v Hk Hget. apply Hk, Hkeys.
    exact (dict_get_in_keys _ _ _ Hget). }
  repeat match goal with |- _ /\ _ => split end.
  - destruct (dict_get (lit "style") params) eqn:E; [|reflexivity].
    exfalso. apply (Habsent (lit "style") p); [|exact E].
    vm_compute. intuition discriminate.
  - destruct (dict_get (lit "palette") params) eqn:E; [|reflexivity].
    exfalso. apply (Habsent (lit "palette") p); [|exact E].
    vm_compute. intuition discriminate.
  - exact Hkeys.
  - subst params. unfold search_params. dict_read.
    destruct prefixes as [[|p ps]|]; dict_read; reflexivity.
  - intros s -> Hs. unfold query_kw.
    destruct Hs as [-> | ->]; reflexivity.
  - intros Hs. unfold query_kw. destruct style as [s|]; [|reflexivity].
    destruct (Hs s eq_refl) as [H1 H2].
    apply eqb_neq in H1, H2. rewrite H1, H2. reflexivity.
  - intros b. unfold query_kw. reflexivity.
  - reflexivity.
Qed.

Lemma search_keywords_in_query_witness :
  query_kw (lit "  arrow ") (Some (lit "fill")) None
  = lit "arrow style=fill" /\
  query_kw (lit "arrow") (Some (lit "outline")) None = lit "arrow".
Proof.
  split.
  - destruct (search_keywords_in_query (lit "  arrow ") None 0 None None
                None (Some (lit "fill")) None) as (_ & _ & _ & _ & H & _).
    apply (H (lit "fill")); [reflexivity | left; reflexivity].
  - destruct (search_keywords_in_query (lit "arrow") None 0 None None
                None (Some (lit "outline")) None)
      as (_ & _ & _ & _ & _ & H & _).
    apply H. intros s [= <-]. split; lit_neq.
Defined.

(** ** Query parameters of the other handlers *)

Lemma svg_params_get (color width height rotate flip : option str)
    (box download : bool) :
  let params := svg_params color width height rotate flip box download in
  dict_get (lit "color") params
  = option_map (fun c => PStr (encode_color c)) (provided color) /\
  dict_get (lit "width") params = option_map PStr (provided width) /\
  dict_get (lit "height") params = option_map PStr (provided height) /\
  dict_get (lit "rotate") params = option_map PStr (provided rotate) /\
  dict_get (lit "flip") params = option_map PStr (provided flip) /\
  dict_get (lit "box") params = (if box then Some (PInt 1) else None) /\
  dict_get (lit "download") params
  = (if download then Some (PInt 1) else None).
Proof.
  cbv zeta. unfold svg_params.
  repeat match goal with |- _ /\ _ => split end;
    destruct box, download; dict_read;
    repeat match goal with
           | |- context [provided ?x] => destruct (provided x)
           end; reflexivity.
Qed.

Lemma encode_color_no_hash (c : str) : ~ In 35%N (encode_color c).
Proof.
  apply replace_clears. vm_compute. intuition discriminate.
Qed.

(** C7. [get_svg] puts [color], [width], [height], [rotate] and [flip]
    in its query parameters only when the argument is given (and then
    only when it is not empty), with the value given, except that every
    '#' of the colour is written "%23": "#ff0000" becomes "%23ff0000"
    and "red" stays "red". [box] and [download] are present, with the
    integer 1, exactly when the flag is true. *)
Theorem svg_params_only_provided
    (color width height rotate flip : option str) (box download : bool) :
  let params := svg_params color width height rotate flip box download in
  (forall v, dict_get (lit "color") params = Some v ->
             exists c, color = Some c /\ v = PStr (encode_color c)) /\
  (forall v, dict_get (lit "width") params = Some v ->
             exists w, width = Some w /\ v = PStr w) /\
  (forall v, dict_get (lit "height") params = Some v ->
             exists w, height = Some w /\ v = PStr w) /\
  (forall v, dict_get (lit "rotate") params = Some v ->
             exists w, rotate = Some w /\ v = PStr w) /\
  (forall v, dict_get (lit "flip") params = Some v ->
             exists w, flip = Some w /\ v = PStr w) /\
  (dict_get (lit "color") params
   = option_map (fun c => PStr (encode_color c)) (provided color) /\
   dict_get (lit "width") params = option_map PStr (provided width) /\
   dict_get (lit "height") params = option_map PStr (provided height) /\
   dict_get (lit "rotate") params = option_map PStr (provided rotate) /\
   dict_get (lit "flip") params = option_map PStr (provided flip)) /\
  (dict_get (lit "box") params = Some (PInt 1) <-> box = true) /\
  (box = false -> dict_get (lit "box") params = None) /\
  (dict_get (lit "download") params = Some (PInt 1) <-> download = true) /\
  (download = false -> dict_get (lit "download") params = None) /\
  (forall c, ~ In 35%N (encode_color c)) /\
  (forall c, ~ In 35%N c -> encode_color c = c) /\
  (forall a b, encode_color (a ++ 35%N :: b)
               = encode_color a ++ lit "%23" ++ encode_color b) /\
  encode_color (lit "#ff0000") = lit "%23ff0000" /\
  encode_color (lit "red") = lit "red".
Proof.
  intros params.
  destruct (svg_params_get color width height rotate flip box download)
    as (Hc & Hw & Hh & Hr & Hf & Hb & Hd).
  fold params in Hc, Hw, Hh, Hr, Hf, Hb, Hd.
  assert (Hopt : forall (x : option str) (f : str -> pyval) v,
             option_map f (provided x) = Some v ->
             exists w, x = Some w /\ v = f w).
  { intros x f v H. destruct (provided x) as [w|] eqn:E; [|discriminate].
    apply provided_some in E. destruct E as [-> _].
    injection H as <-. eauto. }
  repeat match goal with |- _ /\ _ => split end;
    try assumption; try reflexivity.
  - intros v H. rewrite Hc in H. apply Hopt in H. exact H.
  - intros v H. rewrite Hw in H. apply Hopt in H. exact H.
  - intros v H. rewrite Hh in H. apply Hopt in H. exact H.
  - intros v H. rewrite Hr in H. apply Hopt in H. exact H.
  - intros v H. rewrite Hf in H. apply Hopt in H. exact H.
  - rewrite Hb. destruct box; split; reflexivity || discriminate.
  - rewrite Hb. intros ->. reflexivity.
  - rewrite Hd. destruct download; split; reflexivity || discriminate.
  - rewrite Hd. intros ->. reflexivity.
  - apply encode_color_no_hash.
  - intros c Hc'. apply replace_absent. exact Hc'.
  - intros a b. unfold encode_color, replace.
    rewrite flat_map_app. reflexivity.
Qed.

Lemma svg_params_only_provided_witness :
  exists c, Some (lit "#fff") = Some c /\
            PStr (lit "%23fff") = PStr (encode_color c).
Proof.
  destruct (svg_params_only_provided (Some (lit "#fff")) (Some (lit "24"))
              None None None true false) as (H & _).
  apply (H (PStr (lit "%23fff"))). reflexivity.
Defined.

(** ** The handlers *)

Lemma bind_ok {A B} (m : M A) (k : A -> M B) (h h' : list request)
    (a : A) :
  m h = (Ok a, h') -> bind m k h = k a h'.
Proof. intros H. unfold bind. rewrite H. reflexivity. Qed.

(** When every host fails the helper returns [None], after one request
    to each host. *)
Lemma request_iconify_all_fail (net : transport) (path : str)
    (params : option (dict pyval)) (expect_json : bool)
    (h : list request) :
  all_hosts_fail net path params expect_json h ->
  _request_iconify net path params expect_json None h
  = (Ok PNone, h ++ requests_to_all_hosts path params expect_json).
Proof.
  intros Hf. unfold _request_iconify, requests_to_all_hosts.
  apply loop_all_fail. exact Hf.
Qed.

(** A handler that ends with [return data or msg]. *)
Lemma or_message_falsy_as_failure (path : str) (params : dict pyval)
    (expect_json : bool) (msg : str) :
  falsy_as_failure
    (fun net =>
       bind (_request_iconify net path (Some params) expect_json None)
            (fun data => ret (py_or data (PStr msg))))
    path params expect_json msg.
Proof.
  split.
  - intros net h data h' Hreq Hfalsy. rewrite (bind_ok _ _ _ _ _ Hreq).
    unfold py_or. rewrite Hfalsy. reflexivity.
  - intros net h Hf.
    rewrite (bind_ok _ _ _ _ _ (request_iconify_all_fail _ _ _ _ _ Hf)).
    reflexivity.
Qed.

Lemma search_icons_after_request (net : transport) (query : str)
    (limit : option Z) (start : Z) (prefix : option str)
    (prefixes : option (list str)) (category style : option str)
    (palette : option bool) (h h' : list request) (data : pyval) :
  _request_iconify net (lit "/search")
    (Some (search_params query limit start prefix prefixes category style
                         palette)) true None h = (Ok data, h') ->
  search_icons net query limit start prefix prefixes category style
               palette h
  = (search_result data, h').
Proof.
  intros Hreq. unfold search_icons. cbv zeta.
  rewrite (bind_ok _ _ _ _ _ Hreq). reflexivity.
Qed.

Lemma search_result_mapping (d : dict pyval) :
  search_result (PDict d)
  = if has_key (lit "icons") d then Ok (PDict d)
    else Ok (PStr SEARCH_FAILED).
Proof.
  unfold search_result. destruct d as [|kv d]; [reflexivity|].
  cbn [truthy negb py_in]. destruct (has_key _ _); reflexivity.
Qed.

Lemma search_result_falsy (data : pyval) :
  truthy data = false -> search_result data = Ok (PStr SEARCH_FAILED).
Proof. intros H. unfold search_result. rewrite H. reflexivity. Qed.

(** On a mapping, and on a falsy value, the search keeps the value
    exactly when it is a mapping with the key "icons". *)
Lemma search_result_icons_key (data : pyval) :
  is_mapping data \/ truthy data = false ->
  (search_result data = Ok data <-> mapping_with_key (lit "icons") data) /\
  (~ mapping_with_key (lit "icons") data ->
   search_result data = Ok (PStr SEARCH_FAILED)).
Proof.
  intros [[d ->] | Hfalsy].
  - rewrite search_result_mapping.
    destruct (has_key (lit "icons") d) eqn:E.
    + assert (Hk : mapping_with_key (lit "icons") (PDict d)).
      { exists d. split; [reflexivity|]. apply has_key_in_keys, E. }
      split; [tauto|]. intros Hn. destruct (Hn Hk).
    + assert (Hk : ~ mapping_with_key (lit "icons") (PDict d)).
      { intros (d' & [= <-] & Hin). apply has_key_in_keys in Hin.
        congruence. }
      split; [|reflexivity]. split; [discriminate | tauto].
  - rewrite (search_result_falsy _ Hfalsy).
    assert (Hk : ~ mapping_with_key (lit "icons") data).
    { intros (d & -> & Hin). destruct d; [destruct Hin | discriminate]. }
    split; [|reflexivity]. split; [|tauto].
    intros [= <-]. discriminate.
Qed.

(** C2, as amended. When the upstream value is a mapping,
    [search_icons] returns it unchanged if and only if it has the key
    "icons"; a mapping whose "icons" is an empty list is returned
    unchanged. A mapping without the key, a falsy value and the absence
    left by the failure of every host give the message "Unable to
    fetch search results or no results found.". *)
Theorem search_icons_icons_key
    (query : str) (limit : option Z) (start : Z) (prefix : option str)
    (prefixes : option (list str)) (category style : option str)
    (palette : option bool) :
  let params := search_params query limit start prefix prefixes category
                              style palette in
  let search := fun net =>
    search_icons net query limit start prefix prefixes category style
                 palette in
  (forall net h data h',
      _request_iconify net (lit "/search") (Some params) true None h
      = (Ok data, h') ->
      is_mapping data \/ truthy data = false ->
      snd (search net h) = h' /\
      (fst (search net h) = Ok data <->
       mapping_with_key (lit "icons") data) /\
      (~ mapping_with_key (lit "icons") data ->
       fst (search net h) = Ok (PStr SEARCH_FAILED))) /\
  (forall net h,
      all_hosts_fail net (lit "/search") (Some params) true h ->
      fst (search net h) = Ok (PStr SEARCH_FAILED)) /\
  search_result (PDict [(lit "icons", PList [])])
  = Ok (PDict [(lit "icons", PList [])]) /\
  SEARCH_FAILED = lit "Unable to fetch search results or no results found.".
Proof.
  intros params search. split; [|split; [|split; reflexivity]].
  - intros net h data h' Hreq Hdata. subst search. cbv beta.
    rewrite (search_icons_after_request _ _ _ _ _ _ _ _ _ _ _ _ Hreq).
    cbn [fst snd]. split; [reflexivity|].
    apply search_result_icons_key. exact Hdata.
  - intros net h Hf. subst search. cbv beta.
    rewrite (search_icons_after_request _ _ _ _ _ _ _ _ _ _ _ _
               (request_iconify_all_fail _ _ _ _ _ Hf)).
    reflexivity.
Qed.

Lemma search_icons_icons_key_witness :
  fst (search_icons (primary_down [] (Ok sample_search_payload))
                    (lit "home") (Some 10) 0 None None None None None [])
  = Ok sample_search_payload.
Proof.
  destruct (search_icons_icons_key (lit "home") (Some 10) 0 None None None
                                   None None) as (H & _).
  destruct (H (primary_down [] (Ok sample_search_payload)) []
              sample_search_payload
              (List.map
                 (request_to (lit "/search")
                    (Some (search_params (lit "home") (Some 10) 0 None None
                                         None None None))
                    (build_headers true None))
                 [ICONIFY_BASE; lit "https://api.simplesvg.com"]))
    as (_ & Hiff & _).
  - reflexivity.
  - left. exists [(lit "icons", PList [PStr (lit "mdi:home")]);
                  (lit "total", PInt 1)]. reflexivity.
  - apply Hiff. eexists. split; [reflexivity|]. left. reflexivity.
Defined.

(** C2 as stated fails on an upstream value that is not a mapping. A
    host that answers the JSON number 1 makes [search_icons] raise a
    [TypeError] instead of returning the message, and a host that
    answers the JSON string "icons" has that string returned unchanged
    although it is no mapping and has no key. *)
Lemma search_icons_scalar_counterexample :
  let search := fun net =>
    search_icons net (lit "home") (Some 64) 0 None None None None None [] in
  let number := always_answers (lit "1") (Ok (PInt 1)) in
  let text := always_answers [] (Ok (PStr (lit "icons"))) in
  ~ mapping_with_key (lit "icons") (PInt 1) /\
  fst (search number) = Raise TypeError /\
  fst (search number) <> Ok (PStr SEARCH_FAILED) /\
  ~ mapping_with_key (lit "icons") (PStr (lit "icons")) /\
  fst (search text) = Ok (PStr (lit "icons")).
Proof.
  cbv zeta. split; [|split; [|split; [|split]]].
  - intros (d & Hd & _). discriminate Hd.
  - reflexivity.
  - discriminate.
  - intros (d & Hd & _). discriminate Hd.
  - reflexivity.
Qed.

(** C6. On a malformed icon reference [get_svg] and [get_icon_data]
    return the message of the error that [_split_icon] raises, as a
    value, and send no request: the history of requests is unchanged
    whatever the hosts would answer. "bad-icon-format" gives "Icon
    must be in 'prefix:name' format, e.g., 'mdi:home'". *)
Theorem malformed_icon_no_request :
  (forall (net : transport) (icon : str)
          (color width height rotate flip : option str)
          (box download : bool) (h : list request),
      malformed icon ->
      exists msg,
        _split_icon icon = Raise (ValueError msg) /\
        get_svg net icon color width height rotate flip box download h
        = (Ok (PStr msg), h) /\
        get_icon_data net icon h = (Ok (PStr msg), h)) /\
  (forall (net : transport) (color width height rotate flip : option str)
          (box download : bool) (h : list request),
      get_svg net (lit "bad-icon-format") color width height rotate flip
              box download h
      = (Ok (PStr (lit "Icon must be in 'prefix:name' format, e.g., 'mdi:home'")),
         h)).
Proof.
  split.
  - intros net icon color width height rotate flip box download h Hbad.
    destruct (malformed_raises icon Hbad) as [msg Hmsg].
    exists msg. unfold get_svg, get_icon_data. rewrite Hmsg.
    repeat split.
  - intros. reflexivity.
Qed.

Lemma malformed_icon_no_request_witness :
  exists msg,
    _split_icon (lit ":home") = Raise (ValueError msg) /\
    get_svg (always_answers (lit "<svg/>") (Raise JSONDecodeError))
            (lit ":home") None None None None None false false []
    = (Ok (PStr msg), []) /\
    get_icon_data (always_answers (lit "<svg/>") (Raise JSONDecodeError))
                  (lit ":home") []
    = (Ok (PStr msg), []).
Proof.
  destruct malformed_icon_no_request as (H & _).
  apply (H (always_answers (lit "<svg/>") (Raise JSONDecodeError))
           (lit ":home") None None None None None false false []).
  right. exists [], (lit "home"). split; [split|].
  - reflexivity.
  - intros [].
  - left. reflexivity.
Defined.

(** C8. [list_icons_in_collection] always sends [prefix]; it sends
    [info] as the string "1" exactly when [include_info] is true and
    [chars] as "1" exactly when [include_chars] is true, and leaves
    each out otherwise. On an absent or falsy upstream value it returns
    the message "Unable to fetch icons for collection '<prefix>'.",
    which holds the requested prefix. *)
Theorem collection_params_and_failure
    (prefix : str) (include_info include_chars : bool) :
  let params := collection_params prefix include_info include_chars in
  let op := fun net =>
    list_icons_in_collection net prefix include_info include_chars in
  dict_get (lit "prefix") params = Some (PStr prefix) /\
  (dict_get (lit "info") params = Some (PStr (lit "1")) <->
   include_info = true) /\
  (include_info = false -> dict_get (lit "info") params = None) /\
  (dict_get (lit "chars") params = Some (PStr (lit "1")) <->
   include_chars = true) /\
  (include_chars = false -> dict_get (lit "chars") params = None) /\
  (forall net h data h',
      _request_iconify net (lit "/collection") (Some params) true None h
      = (Ok data, h') ->
      truthy data = false ->
      op net h = (Ok (PStr (collection_failed prefix)), h')) /\
  (forall net h,
      all_hosts_fail net (lit "/collection") (Some params) true h ->
      fst (op net h) = Ok (PStr (collection_failed prefix))) /\
  collection_failed prefix
  = lit "Unable to fetch icons for collection '" ++ prefix ++ lit "'." /\
  collection_failed (lit "mdi")
  = lit "Unable to fetch icons for collection 'mdi'.".
Proof.
  intros params op.
  destruct (or_message_falsy_as_failure (lit "/collection") params true
              (collection_failed prefix)) as [Hfalsy Hdown].
  subst params op. unfold collection_params.
  repeat match goal with |- _ /\ _ => split end;
    try reflexivity.
  - destruct include_info, include_chars; dict_read; reflexivity.
  - destruct include_info, include_chars; dict_read; cbn;
      split; reflexivity || discriminate.
  - intros ->. destruct include_chars; dict_read; reflexivity.
  - destruct include_info, include_chars; dict_read; cbn;
      split; reflexivity || discriminate.
  - intros ->. destruct include_info; dict_read; reflexivity.
  - exact Hfalsy.
  - intros net h Hf. exact (f_equal fst (Hdown net h Hf)).
Qed.

Lemma collection_params_and_failure_witness :
  list_icons_in_collection (always_answers [] (Ok (PDict [])))
                           (lit "tabler") true false []
  = (Ok (PStr (lit "Unable to fetch icons for collection 'tabler'.")),
     [request_to (lit "/collection")
        (Some [(lit "prefix", PStr (lit "tabler"));
               (lit "info", PStr (lit "1"))])
        (build_headers true None) ICONIFY_BASE]).
Proof.
  destruct (collection_params_and_failure (lit "tabler") true false)
    as (_ & _ & _ & _ & _ & H & _).
  apply (H (always_answers [] (Ok (PDict []))) [] (PDict [])).
  - reflexivity.
  - reflexivity.
Defined.

Lemma search_falsy_as_failure (query : str) (limit : option Z)
    (start : Z) (prefix : option str) (prefixes : option (list str))
    (category style : option str) (palette : option bool) :
  falsy_as_failure
    (fun net => search_icons net query limit start prefix prefixes
                             category style palette)
    (lit "/search")
    (search_params query limit start prefix prefixes category style palette)
    true SEARCH_FAILED.
Proof.
  split.
  - intros net h data h' Hreq Hfalsy.
    rewrite (search_icons_after_request _ _ _ _ _ _ _ _ _ _ _ _ Hreq).
    rewrite (search_result_falsy _ Hfalsy). reflexivity.
  - intros net h Hf.
    rewrite (search_icons_after_request _ _ _ _ _ _ _ _ _ _ _ _
               (request_iconify_all_fail _ _ _ _ _ Hf)).
    reflexivity.
Qed.

(** C9. Every handler answers a falsy payload of a successful request
    with its failure message, the answer it also gives when every host
    fails: [get_svg] on an empty text, and [get_icon_data],
    [list_collections], [list_icons_in_collection] and [search_icons]
    on a falsy JSON value, such as null, false, 0, an empty string, an
    empty list or an empty mapping. *)
Theorem falsy_payload_is_failure :
  (forall icon prefix name color width height rotate flip box download,
      _split_icon icon = Ok (prefix, name) ->
      falsy_as_failure
        (fun net => get_svg net icon color width height rotate flip box
                            download)
        (lit "/" ++ prefix ++ lit "/" ++ name ++ lit ".svg")
        (svg_params color width height rotate flip box download)
        false SVG_FAILED) /\
  (forall icon prefix name,
      _split_icon icon = Ok (prefix, name) ->
      falsy_as_failure
        (fun net => get_icon_data net icon)
        (lit "/" ++ prefix ++ lit ".json")
        [(lit "icons", PStr name)] true ICON_DATA_FAILED) /\
  (forall prefix prefixes,
      falsy_as_failure
        (fun net => list_collections net prefix prefixes)
        (lit "/collections") (collections_params prefix prefixes)
        true COLLECTIONS_FAILED) /\
  (forall prefix include_info include_chars,
      falsy_as_failure
        (fun net => list_icons_in_collection net prefix include_info
                                             include_chars)
        (lit "/collection")
        (collection_params prefix include_info include_chars)
        true (collection_failed prefix)) /\
  (forall query limit start prefix prefixes category style palette,
      falsy_as_failure
        (fun net => search_icons net query limit start prefix prefixes
                                 category style palette)
        (lit "/search")
        (search_params query limit start prefix prefixes category style
                       palette)
        true SEARCH_FAILED) /\
  (forall s, truthy (PStr s) = false <-> s = []) /\
  Forall (fun v => truthy v = false)
         [PNone; PBool false; PInt 0; PFloat 0; PFloat (2 ^ 63);
          PStr []; PList []; PDict []].
Proof.
  repeat match goal with |- _ /\ _ => split end.
  - intros icon prefix name color width height rotate flip box download
           Hsplit.
    unfold get_svg. rewrite Hsplit. apply or_message_falsy_as_failure.
  - intros icon prefix name Hsplit.
    unfold get_icon_data. rewrite Hsplit.
    apply or_message_falsy_as_failure.
  - intros. apply or_message_falsy_as_failure.
  - intros. apply or_message_falsy_as_failure.
  - intros. apply search_falsy_as_failure.
  - intros s. destruct s; cbn; split; congruence.
  - repeat constructor.
Qed.

Lemma falsy_payload_is_failure_witness :
  get_svg (always_answers [] (Raise JSONDecodeError)) (lit "mdi:home")
          None None None None None false false []
  = (Ok (PStr (lit "Unable to fetch SVG.")),
     [request_to (lit "/mdi/home.svg") (Some []) (build_headers false None)
                 ICONIFY_BASE]) /\
  get_icon_data all_down (lit "mdi:home") []
  = (Ok (PStr (lit "Unable to fetch icon data.")),
     requests_to_all_hosts (lit "/mdi.json")
       (Some [(lit "icons", PStr (lit "home"))]) true).
Proof.
  destruct falsy_payload_is_failure as (Hsvg & Hdata & _).
  split.
  - destruct (Hsvg (lit "mdi:home") (lit "mdi") (lit "home")
                   None None None None None false false eq_refl)
      as [H _].
    apply (H (always_answers [] (Raise JSONDecodeError)) [] (PStr [])).
    + reflexivity.
    + reflexivity.
  - destruct (Hdata (lit "mdi:home") (lit "mdi") (lit "home") eq_refl)
      as [_ H].
    apply (H all_down []).
    repeat split; exists TransportError; reflexivity.
Defined.

(** ** Scenarios *)

(** With every host down the three hosts are tried, in order, and the
    result is [None]. *)
Example request_all_down :
  _request_iconify all_down (lit "/collections") (Some []) true None []
  = (Ok PNone,
     List.map (request_to (lit "/collections") (Some [])
                          (build_headers true None))
              [lit "https://api.iconify.design";
               lit "https://api.simplesvg.com";
               lit "https://api.unisvg.com"]).
Proof. reflexivity. Qed.

(** A 503 from the primary host is a failure; a 200 from it with the
    body [null] is a success with the value [None], and no backup is
    tried. *)
Example request_primary_503 :
  _request_iconify (primary_status 503 [] (Ok sample_search_payload))
                   (lit "/search") None true None []
  = (Ok sample_search_payload,
     List.map (request_to (lit "/search") None (build_headers true None))
              [ICONIFY_BASE; lit "https://api.simplesvg.com"]).
Proof. reflexivity. Qed.

Example request_primary_null :
  _request_iconify (primary_status 200 [] (Ok sample_search_payload))
                   (lit "/search") None true None []
  = (Ok PNone,
     [request_to (lit "/search") None (build_headers true None)
                 ICONIFY_BASE]).
Proof. reflexivity. Qed.

(** A body that is not JSON is a failure of the host when JSON is
    expected, and is not looked at when text is expected. *)
Example request_not_json :
  fst (_request_iconify (always_answers (lit "<svg/>") (Raise JSONDecodeError))
                        (lit "/mdi/home.svg") None true None [])
  = Ok PNone /\
  fst (_request_iconify (always_answers (lit "<svg/>") (Raise JSONDecodeError))
                        (lit "/mdi/home.svg") None false None [])
  = Ok (PStr (lit "<svg/>")).
Proof. split; reflexivity. Qed.

(** The search for "home" with the limit 10 sends the limit 32 and
    returns the answer of the host unchanged. *)
Example search_home_limit_10 :
  dict_get (lit "limit")
           (search_params (lit "home") (Some 10) 0 None None None None None)
  = Some (PInt 32) /\
  fst (search_icons (always_answers [] (Ok sample_search_payload))
                    (lit "home") (Some 10) 0 None None None None None [])
  = Ok sample_search_payload.
Proof. split; reflexivity. Qed.

Example search_params_all_filters :
  search_params (lit " home ") None (-5) (Some (lit "mdi"))
                (Some [lit "mdi"; lit "tabler"]) (Some (lit "General"))
                (Some (lit "fill")) (Some true)
  = [(lit "query", PStr (lit "home style=fill palette=true"));
     (lit "limit", PInt 64);
     (lit "start", PInt 0);
     (lit "prefix", PStr (lit "mdi"));
     (lit "prefixes", PStr (lit "mdi,tabler"));
     (lit "category", PStr (lit "General"))].
Proof. reflexivity. Qed.

Example get_icon_data_all_down :
  fst (get_icon_data all_down (lit "mdi:home") [])
  = Ok (PStr (lit "Unable to fetch icon data.")).
Proof. reflexivity. Qed.

(* ================================================================== *)
(** * Further properties of the code *)

(** ** Strings of the handlers *)

Lemma startswith_iff (p s : str) :
  startswith p s = true <-> exists r, s = p ++ r.
Proof.
  revert s. induction p as [|a p IH]; intros s.
  - cbn. split; [intros _; exists s; reflexivity | reflexivity].
  - destruct s as [|b s]; cbn.
    + split; [discriminate | intros [r Hr]; discriminate Hr].
    + rewrite andb_true_iff, N.eqb_eq, IH. split.
      * intros [-> [r ->]]. exists r. reflexivity.
      * intros [r [= -> ->]]. split; [reflexivity | exists r; reflexivity].
Qed.

(** The substring test finds exactly the strings that hold the needle. *)
Lemma contains_iff (needle s : str) :
  contains needle s = true <-> exists a b, s = a ++ needle ++ b.
Proof.
  induction s as [|c s IH].
  - cbn [contains]. rewrite orb_false_r, startswith_iff. split.
    + intros [r Hr]. exists [], r. exact Hr.
    + intros (a & b & H). destruct a as [|x a]; [|discriminate H].
      exists b. exact H.
  - cbn [contains]. rewrite orb_true_iff, startswith_iff, IH. split.
    + intros [[r Hr] | (a & b & ->)].
      * exists [], r. exact Hr.
      * exists (c :: a), b. reflexivity.
    + intros (a & b & H). destruct a as [|x a].
      * left. exists b. exact H.
      * right. injection H as _ H. exists a, b. exact H.
Qed.

Lemma lstrip_blank (s : str) : forallb isspace s = true -> lstrip s = [].
Proof.
  induction s as [|c s IH]; cbn; [reflexivity|].
  intros H. apply andb_true_iff in H. destruct H as [Hc Hs].
  rewrite Hc. exact (IH Hs).
Qed.

Lemma lstrip_fixed (c : char) (r : str) :
  isspace c = false -> lstrip (c :: r) = c :: r.
Proof. intros H. cbn. rewrite H. reflexivity. Qed.

Lemma lstrip_idempotent (s : str) : lstrip (lstrip s) = lstrip s.
Proof.
  destruct (lstrip_spec s) as (_ & _ & _ & Hhd).
  destruct (lstrip s) as [|c r] eqn:E; [reflexivity|].
  apply lstrip_fixed. exact (Hhd c r eq_refl).
Qed.

Lemma lstrip_app_solid (l r : str) (c : char) :
  isspace c = false -> lstrip (l ++ c :: r) = lstrip l ++ c :: r.
Proof.
  intros Hc. induction l as [|x l IH]; cbn.
  - rewrite Hc. reflexivity.
  - destruct (isspace x); [exact IH | reflexivity].
Qed.

Lemma rstrip_cons_solid (c : char) (r : str) :
  isspace c = false -> rstrip (c :: r) = c :: rstrip r.
Proof.
  intros Hc. unfold rstrip. cbn [rev].
  rewrite (lstrip_app_solid _ [] _ Hc), rev_app_distr. reflexivity.
Qed.

(** The stripped text starts and ends with a character that is no
    white space, and stripping it again changes nothing. *)
Lemma strip_ends (s : str) :
  (forall c r, strip s = c :: r -> isspace c = false) /\
  (forall r c, strip s = r ++ [c] -> isspace c = false) /\
  strip (strip s) = strip s.
Proof.
  assert (Hlast : forall t r c, rstrip t = r ++ [c] -> isspace c = false).
  { intros t r c H. unfold rstrip in H.
    destruct (lstrip_spec (rev t)) as (_ & _ & _ & Hhd).
    apply (f_equal (@rev char)) in H.
    rewrite rev_involutive, rev_app_distr in H. cbn in H.
    exact (Hhd _ _ H). }
  assert (Hfirst : forall c r, strip s = c :: r -> isspace c = false).
  { intros c r H. unfold strip in H.
    destruct (lstrip_spec s) as (_ & _ & _ & Hhd).
    destruct (lstrip s) as [|x t] eqn:E; [discriminate H|].
    pose proof (Hhd x t eq_refl) as Hx.
    rewrite (rstrip_cons_solid _ _ Hx) in H. injection H as <- _.
    exact Hx. }
  split; [exact Hfirst|]. split; [apply Hlast|].
  unfold strip at 1.
  assert (Hl : lstrip (strip s) = strip s).
  { destruct (strip s) as [|c r] eqn:E; [reflexivity|].
    apply lstrip_fixed. exact (Hfirst c r eq_refl). }
  rewrite Hl. unfold strip, rstrip.
  rewrite rev_involutive, lstrip_idempotent. reflexivity.
Qed.

Lemma split_cut (sep : char) (k : nat) (p t : str) :
  ~ In sep p -> split sep (S k) (p ++ sep :: t) = p :: split sep k t.
Proof.
  induction p as [|c p IH]; intros Hp.
  - cbn [app split]. rewrite N.eqb_refl. reflexivity.
  - change ((c :: p) ++ sep :: t) with (c :: (p ++ sep :: t)).
    assert (Hc : N.eqb c sep = false).
    { apply N.eqb_neq. intros ->. apply Hp. left. reflexivity. }
    cbn [split]. rewrite Hc, IH; [reflexivity|].
    intros Hin. apply Hp. right. exact Hin.
Qed.

Lemma lstrip_app_blank (pad s : str) :
  forallb isspace pad = true -> lstrip (pad ++ s) = lstrip s.
Proof.
  induction pad as [|c pad IH]; cbn; [reflexivity|].
  intros H. apply andb_true_iff in H. destruct H as [Hc Hp].
  rewrite Hc. exact (IH Hp).
Qed.

Lemma forallb_rev (f : char -> bool) (l : str) :
  forallb f l = true -> forallb f (rev l) = true.
Proof.
  rewrite !forallb_forall. intros H x Hx. apply H, in_rev, Hx.
Qed.

Lemma rstrip_app_blank (s pad : str) :
  forallb isspace pad = true -> rstrip (s ++ pad) = rstrip s.
Proof.
  intros H. unfold rstrip. rewrite rev_app_distr.
  rewrite lstrip_app_blank by (apply forallb_rev; exact H). reflexivity.
Qed.

(** White space around a text does not change what [strip] gives. *)
Lemma strip_padding (pad1 s pad2 : str) :
  forallb isspace pad1 = true -> forallb isspace pad2 = true ->
  strip (pad1 ++ s ++ pad2) = strip s.
Proof.
  intros H1 H2. unfold strip. rewrite (lstrip_app_blank _ _ H1).
  destruct (lstrip_spec s) as (ws & E & Hws & Hhd).
  destruct (lstrip s) as [|c r] eqn:El.
  - rewrite app_nil_r in E. subst ws.
    rewrite (lstrip_app_blank _ _ Hws), (lstrip_blank _ H2). reflexivity.
  - rewrite E at 1. rewrite <- app_assoc, (lstrip_app_blank _ _ Hws).
    cbn [app]. rewrite (lstrip_fixed _ _ (Hhd c r eq_refl)).
    change (c :: r ++ pad2) with ((c :: r) ++ pad2).
    apply rstrip_app_blank. exact H2.
Qed.

(** X1. The query text sent by [search_icons] does not depend on the
    white space around the query: padding the query with white space
    on either side, or stripping it beforehand, gives the same text. A
    query of white space only gives the bare keyword tokens, so with
    the style "fill" the text sent is " style=fill", with its leading
    space, and with no style and no palette it is the empty string. *)
Theorem query_kw_padding
    (query : str) (style : option str) (palette : option bool) :
  (forall pad1 pad2,
      forallb isspace pad1 = true -> forallb isspace pad2 = true ->
      query_kw (pad1 ++ query ++ pad2) style palette
      = query_kw query style palette) /\
  query_kw (strip query) style palette = query_kw query style palette /\
  (forallb isspace query = true ->
   query_kw query None None = [] /\
   query_kw query (Some (lit "fill")) None = lit " style=fill" /\
   query_kw query style palette = query_kw [] style palette).
Proof.
  split; [|split].
  - intros pad1 pad2 H1 H2. unfold query_kw.
    rewrite (strip_padding _ _ _ H1 H2). reflexivity.
  - unfold query_kw. destruct (strip_ends query) as (_ & _ & ->).
    reflexivity.
  - intros Hb. unfold query_kw, strip.
    rewrite (lstrip_blank _ Hb). repeat split.
Qed.

Lemma query_kw_padding_witness :
  query_kw ([9%N; 32%N] ++ lit "home" ++ [160%N; 10%N; 12288%N]) None
           (Some true)
  = query_kw (lit "home") None (Some true).
Proof.
  destruct (query_kw_padding (lit "home") None (Some true)) as (H & _).
  apply H; reflexivity.
Defined.

(** X2. The [prefixes] parameter can be decoded: for a list of
    prefixes that is not empty and whose entries hold no comma, cutting
    the joined text at its commas gives the list back. A list of one
    prefix is sent as that prefix. *)
Theorem prefixes_join_split (parts : list str) (k : nat) :
  parts <> [] ->
  Forall (fun p => ~ In 44%N p) parts ->
  (List.length parts <= S k)%nat ->
  split 44%N k (join (lit ",") parts) = parts.
Proof.
  change (lit ",") with [44%N].
  revert k. induction parts as [|p rest IH]; intros k Hne Hall Hlen;
    [congruence|].
  inversion Hall as [|? ? Hp Hrest]; subst.
  destruct rest as [|q rest].
  - cbn [join]. apply split_absent. exact Hp.
  - cbn [List.length] in Hlen. destruct k as [|k]; [lia|].
    change (join [44%N] (p :: q :: rest))
      with (p ++ 44%N :: join [44%N] (q :: rest)).
    rewrite (split_cut _ _ _ _ Hp). f_equal.
    apply IH; [discriminate | exact Hrest | cbn [List.length]; lia].
Qed.

Lemma prefixes_join_split_witness :
  split 44%N 5 (join (lit ",") [lit "mdi"; []; lit "tabler"])
  = [lit "mdi"; []; lit "tabler"].
Proof.
  apply prefixes_join_split.
  - discriminate.
  - repeat constructor; vm_compute; intuition discriminate.
  - cbn. lia.
Defined.

(** X3. Encoding a colour twice is the same as encoding it once; a
    colour is left as it is exactly when it holds no '#'; and the
    encoded colour is longer by two characters for each '#'. *)
Theorem encode_color_idempotent (color : str) :
  encode_color (encode_color color) = encode_color color /\
  (encode_color color = color <-> ~ In 35%N color) /\
  List.length (encode_color color)
  = (List.length color + 2 * count_occ N.eq_dec color 35%N)%nat.
Proof.
  split; [|split].
  - apply replace_absent, encode_color_no_hash.
  - split.
    + intros H. rewrite <- H. apply encode_color_no_hash.
    + apply replace_absent.
  - unfold encode_color, replace.
    induction color as [|c color IH]; [reflexivity|].
    cbn [flat_map count_occ]. rewrite length_app, IH.
    destruct (N.eq_dec c 35) as [->|Hc].
    + rewrite N.eqb_refl. cbn. lia.
    + apply N.eqb_neq in Hc. rewrite Hc. cbn. lia.
Qed.

(** ** The normalisers *)

(** X4. A pair returned by [_split_icon] puts the reference back
    together: the reference is the prefix, a colon and the name; the
    prefix is not empty and holds no colon, the name is not empty, and
    no other cut of the reference at a colon has a prefix without
    colon. *)
Theorem split_icon_roundtrip (icon p n : str) :
  _split_icon icon = Ok (p, n) ->
  icon = p ++ lit ":" ++ n /\
  p <> [] /\ n <> [] /\ ~ In colon p /\
  (forall p' n', icon = p' ++ lit ":" ++ n' -> ~ In colon p' ->
                 p' = p /\ n' = n).
Proof.
  intros H. rewrite lit_colon. cbn [app].
  assert (Hin : In colon icon).
  { destruct (in_dec N.eq_dec colon icon) as [Hin|Hout]; [exact Hin|].
    rewrite (split_icon_no_colon _ Hout) in H. discriminate H. }
  destruct (first_occurrence _ _ Hin) as (p0 & n0 & E & Hp0).
  rewrite (split_icon_cut icon p0 n0) in H by (split; assumption).
  destruct p0 as [|a p0]; [discriminate H|].
  destruct n0 as [|b n0]; [discriminate H|].
  injection H as <- <-.
  split; [exact E|]. split; [discriminate|]. split; [discriminate|].
  split; [exact Hp0|].
  intros p' n' E' Hp'. rewrite E in E'.
  destruct (first_occurrence_unique _ _ _ _ _ E' Hp0 Hp'); auto.
Qed.

Lemma split_icon_roundtrip_witness :
  lit "lucide:arrow:up" = lit "lucide" ++ lit ":" ++ lit "arrow:up".
Proof.
  destruct (split_icon_roundtrip (lit "lucide:arrow:up") (lit "lucide")
              (lit "arrow:up") eq_refl) as (H & _).
  exact H.
Defined.

(** X5. [_split_icon] has two messages and each tells its cause: the
    message "Icon must be in 'prefix:name' format, e.g., 'mdi:home'" is
    raised exactly when the reference has no colon, the message
    "Invalid icon, expected 'prefix:name'" exactly when it has a colon
    and the part before the first colon or the part after it is empty.
    No other message is raised: the unpacking of the two parts never
    fails. *)
Theorem split_icon_messages (icon : str) :
  (_split_icon icon
   = Raise (ValueError
              (lit "Icon must be in 'prefix:name' format, e.g., 'mdi:home'"))
   <-> ~ In colon icon) /\
  (_split_icon icon
   = Raise (ValueError (lit "Invalid icon, expected 'prefix:name'"))
   <-> exists p n, cut_at_first_colon icon p n /\ (p = [] \/ n = [])) /\
  (forall e, _split_icon icon = Raise e ->
             e = ValueError
                   (lit "Icon must be in 'prefix:name' format, e.g., 'mdi:home'")
             \/ e = ValueError (lit "Invalid icon, expected 'prefix:name'")).
Proof.
  destruct (in_dec N.eq_dec colon icon) as [Hin|Hout].
  - destruct (first_occurrence _ _ Hin) as (p & n & E & Hp).
    assert (Hcut : cut_at_first_colon icon p n) by (split; assumption).
    rewrite (split_icon_cut icon p n Hcut).
    assert (Huniq : forall p' n', cut_at_first_colon icon p' n' ->
                                  p' = p /\ n' = n).
    { intros p' n' [E' Hp']. rewrite E in E'.
      destruct (first_occurrence_unique _ _ _ _ _ E' Hp Hp'); auto. }
    split; [|split].
    + split; [|tauto]. destruct p, n; discriminate.
    + split.
      * intros H. exists p, n. split; [exact Hcut|].
        destruct p; [left; reflexivity|].
        destruct n; [right; reflexivity | discriminate H].
      * intros (p' & n' & Hcut' & Hempty).
        destruct (Huniq _ _ Hcut') as [-> ->].
        destruct Hempty as [-> | ->]; [reflexivity|].
        destruct p; reflexivity.
    + intros e H. right. destruct p, n; congruence.
  - rewrite (split_icon_no_colon _ Hout). split; [|split].
    + tauto.
    + split; [discriminate|].
      intros (p & n & [-> _] & _). exfalso. apply Hout.
      apply in_or_app. right. left. reflexivity.
    + intros e [= <-]. left. reflexivity.
Qed.

(** X6. Clamping a limit twice is the same as clamping it once, a
    larger requested limit never gives a smaller one, and a requested
    limit is kept exactly when it lies between 32 and 999. *)
Theorem clamp_limit_idempotent_monotone :
  (forall l, _clamp_limit (Some (_clamp_limit l)) = _clamp_limit l) /\
  (forall n m, n <= m -> _clamp_limit (Some n) <= _clamp_limit (Some m)) /\
  (forall n, _clamp_limit (Some n) = n <-> 32 <= n <= 999).
Proof.
  split; [|split].
  - intros [n|]; unfold _clamp_limit; lia.
  - intros n m H. unfold _clamp_limit. lia.
  - intros n. unfold _clamp_limit. lia.
Qed.

Lemma clamp_limit_idempotent_monotone_witness :
  _clamp_limit (Some 5) <= _clamp_limit (Some 40).
Proof.
  destruct clamp_limit_idempotent_monotone as (_ & H & _).
  apply H. lia.
Defined.

(** ** Query parameters *)

Lemma provided_none (x : option str) :
  provided x = None <-> x = None \/ x = Some [].
Proof.
  destruct x as [[|c r]|]; cbn; split; auto; try discriminate.
  intros [H|H]; discriminate H.
Qed.

(** X7. [search_icons] always sends [limit], a number between 32 and
    999, and [start], which is the requested start when that is not
    negative and 0 when it is. [prefix] and [category] are sent exactly
    when given and not empty, with the text given; [prefixes] exactly
    when the list is given and not empty, joined by commas. The
    parameters are written in the order query, limit, start, prefix,
    prefixes, category. *)
Theorem search_params_bounds_and_filters
    (query : str) (limit : option Z) (start : Z) (prefix : option str)
    (prefixes : option (list str)) (category style : option str)
    (palette : option bool) :
  let params := search_params query limit start prefix prefixes category
                              style palette in
  (exists l, dict_get (lit "limit") params = Some (PInt l) /\
             32 <= l <= 999 /\ l = _clamp_limit limit) /\
  (exists s, dict_get (lit "start") params = Some (PInt s) /\
             0 <= s /\ (0 <= start -> s = start) /\
             (start < 0 -> s = 0)) /\
  dict_get (lit "prefix") params = option_map PStr (provided prefix) /\
  dict_get (lit "category") params = option_map PStr (provided category) /\
  dict_get (lit "prefixes") params
  = match prefixes with
    | Some (p :: ps) => Some (PStr (join (lit ",") (p :: ps)))
    | _ => None
    end /\
  (dict_get (lit "prefix") params = None <->
   prefix = None \/ prefix = Some []) /\
  (dict_get (lit "prefixes") params = None <->
   prefixes = None \/ prefixes = Some []) /\
  dict_keys params
  = [lit "query"; lit "limit"; lit "start"]
    ++ filter (sent params) [lit "prefix"; lit "prefixes"; lit "category"].
Proof.
  intros params.
  assert (Hp : dict_get (lit "prefix") params
               = option_map PStr (provided prefix)).
  { subst params. unfold search_params. dict_read.
    destruct prefixes as [[|p ps]|]; dict_read;
      destruct (provided prefix); reflexivity. }
  assert (Hps : dict_get (lit "prefixes") params
                = match prefixes with
                  | Some (p :: ps) => Some (PStr (join (lit ",") (p :: ps)))
                  | _ => None
                  end).
  { subst params. unfold search_params. dict_read.
    destruct prefixes as [[|p ps]|]; dict_read;
      destruct (provided prefix); reflexivity. }
  repeat match goal with |- _ /\ _ => split end.
  - exists (_clamp_limit limit). split; [|split; [|reflexivity]].
    + subst params. unfold search_params. dict_read.
      destruct prefixes as [[|p ps]|]; dict_read; reflexivity.
    + destruct limit; unfold _clamp_limit; lia.
  - exists (Z.max 0 start). split; [|lia].
    subst params. unfold search_params. dict_read.
    destruct prefixes as [[|p ps]|]; dict_read; reflexivity.
  - exact Hp.
  - subst params. unfold search_params. dict_read.
    destruct (provided category); [reflexivity|].
    destruct prefixes as [[|p ps]|]; dict_read;
      destruct (provided prefix); reflexivity.
  - exact Hps.
  - rewrite Hp, <- provided_none.
    destruct (provided prefix); cbn; split; congruence.
  - rewrite Hps. destruct prefixes as [[|p ps]|]; split; auto;
      try discriminate.
    intros [H|H]; discriminate H.
  - subst params. unfold search_params, sent.
    destruct (provided prefix), prefixes as [[|p ps]|],
      (provided category); reflexivity.
Qed.

(** X8. [list_collections] sends [prefix] exactly when it is given and
    not empty and [prefixes] exactly when the list is given and not
    empty, joined by commas, and nothing else: with no filter the
    request has no query parameter at all. *)
Theorem collections_params_filters
    (prefix : option str) (prefixes : option (list str)) :
  let params := collections_params prefix prefixes in
  dict_get (lit "prefix") params = option_map PStr (provided prefix) /\
  dict_get (lit "prefixes") params
  = match prefixes with
    | Some (p :: ps) => Some (PStr (join (lit ",") (p :: ps)))
    | _ => None
    end /\
  dict_keys params
  = filter (sent params) [lit "prefix"; lit "prefixes"] /\
  (params = [] <->
   (prefix = None \/ prefix = Some []) /\
   (prefixes = None \/ prefixes = Some [])).
Proof.
  intros params. subst params. unfold collections_params, sent.
  rewrite <- provided_none.
  destruct (provided prefix), prefixes as [[|p ps]|];
    repeat match goal with |- _ /\ _ => split end;
    try reflexivity; try discriminate; intros; auto;
    try tauto; try intuition discriminate.
Qed.

(** X9. [get_svg] writes its query parameters in the order color,
    width, height, rotate, flip, box, download, and no parameter
    twice. *)
Theorem svg_params_keys_in_order
    (color width height rotate flip : option str) (box download : bool) :
  let params := svg_params color width height rotate flip box download in
  dict_keys params
  = filter (sent params)
           [lit "color"; lit "width"; lit "height"; lit "rotate";
            lit "flip"; lit "box"; lit "download"] /\
  NoDup (dict_keys params).
Proof.
  intros params.
  assert (H : dict_keys params
              = filter (sent params)
                       [lit "color"; lit "width"; lit "height";
                        lit "rotate"; lit "flip"; lit "box";
                        lit "download"]).
  { subst params. unfold svg_params, sent.
    destruct (provided color), (provided width), (provided height),
      (provided rotate), (provided flip), box, download; reflexivity. }
  split; [exact H|]. rewrite H. apply NoDup_filter.
  repeat constructor; vm_compute; intuition discriminate.
Qed.

(** ** Headers *)

Lemma dict_get_absent {V} (k : str) (d : dict V) :
  ~ In k (dict_keys d) -> dict_get k d = None.
Proof.
  induction d as [|[k0 w] d IH]; cbn; [reflexivity|].
  intros H. destruct (PyStr.eqb k0 k) eqn:E.
  - apply eqb_eq in E. tauto.
  - apply IH. tauto.
Qed.

(** Reading after [d.update(other)]: the entry of [other] when it has
    one, the entry of [d] otherwise. *)
Lemma dict_get_update {V} (k : str) (d other : dict V) :
  NoDup (dict_keys other) ->
  dict_get k (dict_update d other)
  = match dict_get k other with
    | Some v => Some v
    | None => dict_get k d
    end.
Proof.
  unfold dict_update. revert d.
  induction other as [|[k0 v0] other IH]; intros d Hnd; [reflexivity|].
  cbn [dict_keys List.map fst] in Hnd. inversion Hnd as [|? ? Hk0 Hnd'].
  subst. cbn [fold_left fst snd dict_get].
  rewrite (IH _ Hnd'). destruct (PyStr.eqb k0 k) eqn:E.
  - apply eqb_eq in E. subst k0.
    rewrite (dict_get_absent _ _ Hk0), dict_get_set_eq. reflexivity.
  - apply eqb_neq in E. rewrite (dict_get_set_neq _ _ _ _ E).
    reflexivity.
Qed.

(** X10. The headers of a request: a header set by the caller of
    [_request_iconify] is sent with the caller's value, also when it
    is [User-Agent] or [Accept]; otherwise [User-Agent] is
    "icon-mcp/1.0", [Accept] is "application/json" when JSON is
    expected and "image/svg+xml" when not, and no other header is
    set. *)
Theorem build_headers_override
    (expect_json : bool) (headers : option (dict str)) :
  (forall h, headers = Some h -> NoDup (dict_keys h)) ->
  let sent_headers := build_headers expect_json headers in
  (forall k v, caller_header headers k = Some v ->
               dict_get k sent_headers = Some v) /\
  (caller_header headers (lit "User-Agent") = None ->
   dict_get (lit "User-Agent") sent_headers = Some (lit "icon-mcp/1.0")) /\
  (caller_header headers (lit "Accept") = None ->
   dict_get (lit "Accept") sent_headers
   = Some (if expect_json then lit "application/json"
           else lit "image/svg+xml")) /\
  (forall k, caller_header headers k = None ->
             k <> lit "User-Agent" -> k <> lit "Accept" ->
             dict_get k sent_headers = None).
Proof.
  intros Hnd sent_headers.
  assert (H : forall k,
             dict_get k sent_headers
             = match caller_header headers k with
               | Some v => Some v
               | None =>
                   dict_get k
                     [(lit "User-Agent", USER_AGENT);
                      (lit "Accept",
                       if expect_json then lit "application/json"
                       else lit "image/svg+xml")]
               end).
  { intros k. subst sent_headers. unfold build_headers, caller_header.
    destruct headers as [[|kv h]|]; [reflexivity| |reflexivity].
    apply dict_get_update. apply Hnd. reflexivity. }
  repeat match goal with |- _ /\ _ => split end.
  - intros k v Hk. rewrite H, Hk. reflexivity.
  - intros Hk. rewrite H, Hk. reflexivity.
  - intros Hk. rewrite H, Hk. reflexivity.
  - intros k Hk Hua Hacc. rewrite H, Hk. cbn [dict_get].
    apply not_eq_sym, eqb_neq in Hua. apply not_eq_sym, eqb_neq in Hacc.
    rewrite Hua, Hacc. reflexivity.
Qed.

Lemma build_headers_override_witness :
  dict_get (lit "Accept")
           (build_headers true
              (Some [(lit "Accept", lit "text/plain");
                     (lit "X-Trace", lit "1")]))
  = Some (lit "text/plain").
Proof.
  destruct (build_headers_override true
              (Some [(lit "Accept", lit "text/plain");
                     (lit "X-Trace", lit "1")])) as (H & _).
  - intros h [= <-].
    repeat constructor; vm_compute; intuition discriminate.
  - apply H. reflexivity.
Defined.

(** ** What the handlers return *)

(** The helper always returns, whatever the hosts do. *)
Lemma request_iconify_total (net : transport) (path : str)
    (params : option (dict pyval)) (expect_json : bool)
    (headers : option (dict str)) (h : list request) :
  exists v m,
    (1 <= m <= 3)%nat /\
    _request_iconify net path params expect_json headers h
    = (Ok v,
       h ++ firstn m (List.map
                        (request_to path params
                           (build_headers expect_json headers))
                        (ICONIFY_BASE :: ICONIFY_BACKUPS))).
Proof.
  destruct (loop_total net path params expect_json
              (build_headers expect_json headers)
              (ICONIFY_BASE :: ICONIFY_BACKUPS) h)
    as (v & m & Hl & Hm & Hpos).
  exists v, m. split.
  - cbn [List.length ICONIFY_BACKUPS] in Hm.
    assert (0 < m)%nat by (apply Hpos; discriminate). lia.
  - unfold _request_iconify. rewrite Hl, firstn_map. reflexivity.
Qed.

(** When text is expected the helper returns a string or [None]. *)
Lemma for_hosts_text (net : transport) (hosts : list str) (path : str)
    (params : option (dict pyval)) (_headers : dict str)
    (h : list request) :
  exists h',
    (for_hosts net hosts path params false _headers h = (Ok PNone, h')) \/
    (exists s,
        for_hosts net hosts path params false _headers h
        = (Ok (PStr s), h')).
Proof.
  revert h. induction hosts as [|host rest IH]; intros h.
  - exists h. left. reflexivity.
  - cbn [for_hosts]. unfold try_except, attempt, bind, client_get,
      raise_for_status, ret, raise.
    destruct (net h _) as [resp|e]; [|apply IH].
    destruct (_ && _); [|apply IH].
    eexists. right. eexists. reflexivity.
Qed.

Lemma or_message_truthy (data : pyval) (msg : str) :
  msg <> [] -> truthy (py_or data (PStr msg)) = true.
Proof.
  intros Hm. unfold py_or. destruct (truthy data) eqn:E; [exact E|].
  destruct msg; [congruence | reflexivity].
Qed.

(** The errors of [_split_icon] carry one of its two messages. *)
Lemma split_icon_raise_cases (icon : str) (e : exn) :
  _split_icon icon = Raise e ->
  e = ValueError
        (lit "Icon must be in 'prefix:name' format, e.g., 'mdi:home'")
  \/ e = ValueError (lit "Invalid icon, expected 'prefix:name'").
Proof.
  intros H. destruct (in_dec N.eq_dec colon icon) as [Hin|Hout].
  - destruct (first_occurrence _ _ Hin) as (p & n & E & Hp).
    rewrite (split_icon_cut icon p n) in H by (split; assumption).
    right. destruct p, n; congruence.
  - rewrite (split_icon_no_colon _ Hout) in H. left. congruence.
Qed.

(** X11. [get_svg], [get_icon_data], [list_collections] and
    [list_icons_in_collection] never raise, whatever their arguments
    and whatever the hosts do, and what they return is never falsy:
    never [None], never an empty string or an empty mapping. What
    [get_svg] returns is always a string. *)
Theorem handlers_never_raise (net : transport) (h : list request) :
  (forall icon color width height rotate flip box download,
      exists s, s <> [] /\
        fst (get_svg net icon color width height rotate flip box download h)
        = Ok (PStr s)) /\
  (forall icon,
      exists v, truthy v = true /\
                fst (get_icon_data net icon h) = Ok v) /\
  (forall prefix prefixes,
      exists v, truthy v = true /\
                fst (list_collections net prefix prefixes h) = Ok v) /\
  (forall prefix include_info include_chars,
      exists v, truthy v = true /\
                fst (list_icons_in_collection net prefix include_info
                                              include_chars h) = Ok v).
Proof.
  assert (Hor : forall path params msg,
             msg <> [] ->
             exists v, truthy v = true /\
               fst (bind (_request_iconify net path params true None)
                         (fun data => ret (py_or data (PStr msg))) h)
               = Ok v).
  { intros path params msg Hmsg.
    destruct (request_iconify_total net path params true None h)
      as (v & m & _ & Hreq).
    rewrite (bind_ok _ _ _ _ _ Hreq). eexists. split; [|reflexivity].
    apply or_message_truthy, Hmsg. }
  split; [|split; [|split]].
  - intros icon color width height rotate flip box download.
    unfold get_svg.
    destruct (_split_icon icon) as [[prefix name]|e] eqn:E.
    + unfold _request_iconify.
      destruct (for_hosts_text net (ICONIFY_BASE :: ICONIFY_BACKUPS)
                  (lit "/" ++ prefix ++ lit "/" ++ name ++ lit ".svg")
                  (Some (svg_params color width height rotate flip box
                                    download))
                  (build_headers false None) h)
        as (h' & [Hreq | [s Hreq]]);
        rewrite (bind_ok _ _ _ _ _ Hreq).
      * exists SVG_FAILED. split; [discriminate | reflexivity].
      * destruct s as [|c s].
        -- exists SVG_FAILED. split; [discriminate | reflexivity].
        -- exists (c :: s). split; [discriminate | reflexivity].
    + destruct (split_icon_raise_cases icon e E) as [-> | ->]; eexists;
        (split; [|reflexivity]); discriminate.
  - intros icon. unfold get_icon_data.
    destruct (_split_icon icon) as [[prefix name]|e] eqn:E.
    + apply Hor. discriminate.
    + destruct (split_icon_raise_cases icon e E) as [-> | ->]; eexists;
        (split; [|reflexivity]); reflexivity.
  - intros prefix prefixes. apply Hor. discriminate.
  - intros prefix include_info include_chars. apply Hor.
    unfold collection_failed. discriminate.
Qed.

(** X12. [search_icons] raises nothing but a [TypeError], and raises
    it exactly when the value that the helper returns is a truthy
    number or truth value: the value true, or a number that is not
    zero. *)
Theorem search_icons_raises_type_error
    (net : transport) (query : str) (limit : option Z) (start : Z)
    (prefix : option str) (prefixes : option (list str))
    (category style : option str) (palette : option bool)
    (h : list request) :
  let run := search_icons net query limit start prefix prefixes category
                          style palette h in
  let data := fst (_request_iconify net (lit "/search")
                     (Some (search_params query limit start prefix prefixes
                                          category style palette))
                     true None h) in
  (forall e, fst run = Raise e -> e = TypeError) /\
  ((exists e, fst run = Raise e) <->
   exists v, data = Ok v /\ is_scalar v /\ truthy v = true).
Proof.
  intros run data.
  destruct (request_iconify_total net (lit "/search")
              (Some (search_params query limit start prefix prefixes
                                   category style palette))
              true None h) as (v & m & _ & Hreq).
  subst run data.
  rewrite (search_icons_after_request _ _ _ _ _ _ _ _ _ _ _ _ Hreq), Hreq.
  cbn [fst]. unfold search_result.
  destruct v as [|b|n|bits|s|l|d]; cbn [truthy py_in is_scalar negb].
  - split; [discriminate|]. split; [intros [e He]; discriminate He|].
    intros (v & [= <-] & _ & Ht). discriminate Ht.
  - destruct b; cbn [negb].
    + split; [intros e [= <-]; reflexivity|].
      split; [intros _|eauto].
      exists (PBool true). cbn. auto.
    + split; [discriminate|]. split; [intros [e He]; discriminate He|].
      intros (v & [= <-] & _ & Ht). discriminate Ht.
  - destruct (n =? 0) eqn:E; cbn [negb].
    + split; [discriminate|]. split; [intros [e He]; discriminate He|].
      intros (v & [= <-] & _ & Ht). cbn in Ht. rewrite E in Ht.
      discriminate Ht.
    + split; [intros e [= <-]; reflexivity|].
      split; [intros _|eauto].
      exists (PInt n). cbn. rewrite E. auto.
  - destruct (bits mod 2 ^ 63 =? 0) eqn:E; cbn [negb].
    + split; [discriminate|]. split; [intros [e He]; discriminate He|].
      intros (v & [= <-] & _ & Ht). cbn [truthy] in Ht. rewrite E in Ht.
      discriminate Ht.
    + split; [intros e [= <-]; reflexivity|].
      split; [intros _|eauto].
      exists (PFloat bits). cbn [truthy is_scalar]. rewrite E. auto.
  - split; [|split].
    + intros e. destruct s; cbn [negb];
        [|destruct (contains _ _)]; discriminate.
    + intros [e He]. destruct s; cbn [negb] in He;
        [|destruct (contains _ _)]; discriminate He.
    + intros (v & [= <-] & [] & _).
  - split; [|split].
    + intros e. destruct l; cbn [negb];
        [|destruct (existsb _ _)]; discriminate.
    + intros [e He]. destruct l; cbn [negb] in He;
        [|destruct (existsb _ _)]; discriminate He.
    + intros (v & [= <-] & [] & _).
  - split; [|split].
    + intros e. destruct d; cbn [negb];
        [|destruct (has_key _ _)]; discriminate.
    + intros [e He]. destruct d; cbn [negb] in He;
        [|destruct (has_key _ _)]; discriminate He.
    + intros (v & [= <-] & [] & _).
Qed.

(** X13. When the host answers the search with a JSON string,
    [search_icons] returns that string if the text "icons" occurs in it
    and the failure message if not; when the host answers with a JSON
    list, it returns the list if the string "icons" is one of its
    elements and the failure message if not. *)
Theorem search_icons_text_and_list
    (net : transport) (query : str) (limit : option Z) (start : Z)
    (prefix : option str) (prefixes : option (list str))
    (category style : option str) (palette : option bool)
    (h h' : list request) (data : pyval) :
  _request_iconify net (lit "/search")
    (Some (search_params query limit start prefix prefixes category style
                         palette)) true None h = (Ok data, h') ->
  let run := search_icons net query limit start prefix prefixes category
                          style palette h in
  (forall s, data = PStr s ->
     ((exists a b, s = a ++ lit "icons" ++ b) -> run = (Ok data, h')) /\
     (~ (exists a b, s = a ++ lit "icons" ++ b) ->
      run = (Ok (PStr SEARCH_FAILED), h'))) /\
  (forall l, data = PList l ->
     (In (PStr (lit "icons")) l -> run = (Ok data, h')) /\
     (~ In (PStr (lit "icons")) l ->
      run = (Ok (PStr SEARCH_FAILED), h'))).
Proof.
  intros Hreq run. subst run.
  rewrite (search_icons_after_request _ _ _ _ _ _ _ _ _ _ _ _ Hreq).
  split.
  - intros s ->. unfold search_result. cbn [py_in].
    destruct (contains (lit "icons") s) eqn:E.
    + split; [|intros Hn; apply contains_iff in E; tauto].
      intros _. destruct s as [|c s]; [discriminate E | reflexivity].
    + split; [|intros _; destruct s; reflexivity].
      intros Hs. apply contains_iff in Hs. congruence.
  - intros l ->. unfold search_result. cbn [py_in].
    set (is_icons := fun v : pyval =>
                       match v with
                       | PStr s => PyStr.eqb s (lit "icons")
                       | _ => false
                       end).
    assert (Hex : existsb is_icons l = true <-> In (PStr (lit "icons")) l).
    { rewrite existsb_exists. split.
      - intros (v & Hin & Hv). destruct v; try discriminate Hv.
        apply eqb_eq in Hv. subst. exact Hin.
      - intros Hin. exists (PStr (lit "icons")). split; [exact Hin|].
        reflexivity. }
    destruct (existsb is_icons l) eqn:E.
    + split; [|intros Hn; tauto].
      intros _. destruct l; [discriminate E | reflexivity].
    + split; [|intros _; destruct l; reflexivity].
      intros Hin. apply Hex in Hin. discriminate Hin.
Qed.

Lemma search_icons_text_and_list_witness :
  search_icons (always_answers [] (Ok (PStr (lit "no icons here"))))
               (lit "home") None 0 None None None None None []
  = (Ok (PStr (lit "no icons here")),
     [request_to (lit "/search")
        (Some (search_params (lit "home") None 0 None None None None None))
        (build_headers true None) ICONIFY_BASE]).
Proof.
  destruct (search_icons_text_and_list
              (always_answers [] (Ok (PStr (lit "no icons here"))))
              (lit "home") None 0 None None None None None []
              [request_to (lit "/search")
                 (Some (search_params (lit "home") None 0 None None None
                                      None None))
                 (build_headers true None) ICONIFY_BASE]
              (PStr (lit "no icons here")) eq_refl) as (H & _).
  destruct (H (lit "no icons here") eq_refl) as (Hyes & _).
  apply Hyes. exists (lit "no "), (lit " here"). reflexivity.
Defined.

Lemma or_message_passes_truthy (path : str) (params : dict pyval)
    (expect_json : bool) (msg : str) :
  passes_truthy
    (fun net =>
       bind (_request_iconify net path (Some params) expect_json None)
            (fun data => ret (py_or data (PStr msg))))
    path params expect_json.
Proof.
  intros net h data h' Hreq Ht. rewrite (bind_ok _ _ _ _ _ Hreq).
  unfold py_or. rewrite Ht. reflexivity.
Qed.

(** X14. A truthy payload goes through unchanged: [get_svg] returns
    the text of the answer as it is (so any text that is not empty),
    and [get_icon_data], [list_collections] and
    [list_icons_in_collection] return the parsed JSON value as it is,
    whatever its shape, mapping or not. *)
Theorem truthy_payload_passes :
  (forall icon prefix name color width height rotate flip box download,
      _split_icon icon = Ok (prefix, name) ->
      passes_truthy
        (fun net => get_svg net icon color width height rotate flip box
                            download)
        (lit "/" ++ prefix ++ lit "/" ++ name ++ lit ".svg")
        (svg_params color width height rotate flip box download) false) /\
  (forall icon prefix name,
      _split_icon icon = Ok (prefix, name) ->
      passes_truthy (fun net => get_icon_data net icon)
                    (lit "/" ++ prefix ++ lit ".json")
                    [(lit "icons", PStr name)] true) /\
  (forall prefix prefixes,
      passes_truthy (fun net => list_collections net prefix prefixes)
                    (lit "/collections")
                    (collections_params prefix prefixes) true) /\
  (forall prefix include_info include_chars,
      passes_truthy
        (fun net => list_icons_in_collection net prefix include_info
                                             include_chars)
        (lit "/collection")
        (collection_params prefix include_info include_chars) true).
Proof.
  split; [|split; [|split]].
  - intros icon prefix name color width height rotate flip box download
           Hsplit.
    unfold get_svg. rewrite Hsplit. apply or_message_passes_truthy.
  - intros icon prefix name Hsplit. unfold get_icon_data.
    rewrite Hsplit. apply or_message_passes_truthy.
  - intros. apply or_message_passes_truthy.
  - intros. apply or_message_passes_truthy.
Qed.

Lemma truthy_payload_passes_witness :
  get_icon_data (always_answers [] (Ok (PInt 404))) (lit "mdi:home") []
  = (Ok (PInt 404),
     [request_to (lit "/mdi.json")
        (Some [(lit "icons", PStr (lit "home"))])
        (build_headers true None) ICONIFY_BASE]).
Proof.
  destruct truthy_payload_passes as (_ & H & _).
  apply (H (lit "mdi:home") (lit "mdi") (lit "home") eq_refl
           (always_answers [] (Ok (PInt 404))) [] (PInt 404));
    reflexivity.
Defined.

(** ** Requests on the wire *)

Lemma or_message_sends_to_hosts (path : str) (params : dict pyval)
    (expect_json : bool) (msg : str) :
  sends_to_hosts
    (fun net =>
       bind (_request_iconify net path (Some params) expect_json None)
            (fun data => ret (py_or data (PStr msg))))
    path params expect_json.
Proof.
  intros net h.
  destruct (request_iconify_total net path (Some params) expect_json None h)
    as (v & m & Hm & Hreq).
  exists m. split; [exact Hm|].
  rewrite (bind_ok _ _ _ _ _ Hreq). reflexivity.
Qed.

(** X15. Every handler keeps the requests made before it and adds
    between one and three of its own: the same path and the same query
    parameters to the primary host and then to the backups, in the
    order of the list, with the headers [User-Agent: icon-mcp/1.0] and
    [Accept]. [get_svg] asks for "/prefix/name.svg" and accepts
    "image/svg+xml"; [get_icon_data] asks for "/prefix.json" and, like
    the other handlers, accepts "application/json". *)
Theorem handlers_send_to_hosts :
  (forall icon prefix name color width height rotate flip box download,
      _split_icon icon = Ok (prefix, name) ->
      sends_to_hosts
        (fun net => get_svg net icon color width height rotate flip box
                            download)
        (lit "/" ++ prefix ++ lit "/" ++ name ++ lit ".svg")
        (svg_params color width height rotate flip box download) false) /\
  (forall icon prefix name,
      _split_icon icon = Ok (prefix, name) ->
      sends_to_hosts (fun net => get_icon_data net icon)
                     (lit "/" ++ prefix ++ lit ".json")
                     [(lit "icons", PStr name)] true) /\
  (forall prefix prefixes,
      sends_to_hosts (fun net => list_collections net prefix prefixes)
                     (lit "/collections")
                     (collections_params prefix prefixes) true) /\
  (forall prefix include_info include_chars,
      sends_to_hosts
        (fun net => list_icons_in_collection net prefix include_info
                                             include_chars)
        (lit "/collection")
        (collection_params prefix include_info include_chars) true) /\
  (forall query limit start prefix prefixes category style palette,
      sends_to_hosts
        (fun net => search_icons net query limit start prefix prefixes
                                 category style palette)
        (lit "/search")
        (search_params query limit start prefix prefixes category style
                       palette) true) /\
  (forall path params expect_json,
      requests_to_all_hosts path params expect_json
      = List.map
          (fun host =>
             {| req_url := host ++ path;
                req_params := params;
                req_headers :=
                  [(lit "User-Agent", lit "icon-mcp/1.0");
                   (lit "Accept",
                    if expect_json then lit "application/json"
                    else lit "image/svg+xml")] |})
          [lit "https://api.iconify.design";
           lit "https://api.simplesvg.com";
           lit "https://api.unisvg.com"]).
Proof.
  repeat match goal with |- _ /\ _ => split end.
  - intros icon prefix name color width height rotate flip box download
           Hsplit.
    unfold get_svg. rewrite Hsplit. apply or_message_sends_to_hosts.
  - intros icon prefix name Hsplit. unfold get_icon_data.
    rewrite Hsplit. apply or_message_sends_to_hosts.
  - intros. apply or_message_sends_to_hosts.
  - intros. apply or_message_sends_to_hosts.
  - intros query limit start prefix prefixes category style palette net h.
    destruct (request_iconify_total net (lit "/search")
                (Some (search_params query limit start prefix prefixes
                                     category style palette))
                true None h) as (v & m & Hm & Hreq).
    exists m. split; [exact Hm|].
    rewrite (search_icons_after_request _ _ _ _ _ _ _ _ _ _ _ _ Hreq).
    reflexivity.
  - intros. reflexivity.
Qed.

Lemma handlers_send_to_hosts_witness :
  exists m, (1 <= m <= 3)%nat /\
    snd (get_svg all_down (lit "mdi:home") None None None None None
                 true false [])
    = [] ++ firstn m (requests_to_all_hosts (lit "/mdi/home.svg")
                        (Some [(lit "box", PInt 1)]) false).
Proof.
  destruct handlers_send_to_hosts as (H & _).
  apply (H (lit "mdi:home") (lit "mdi") (lit "home") None None None None
           None true false eq_refl all_down []).
Defined.

(** One step of the loop over the hosts, read through what the helper
    sees of the answer. *)
Lemma for_hosts_step (net : transport) (host : str) (rest : list str)
    (path : str) (params : option (dict pyval)) (expect_json : bool)
    (_headers : dict str) (h : list request) :
  for_hosts net (host :: rest) path params expect_json _headers h
  = match success_value expect_json
            (net h (request_to path params _headers host)) with
    | Some v => (Ok v, h ++ [request_to path params _headers host])
    | None =>
        for_hosts net rest path params expect_json _headers
                  (h ++ [request_to path params _headers host])
    end.
Proof.
  cbn [for_hosts]. unfold try_except, attempt, bind, client_get,
    raise_for_status, lift, ret, raise, success_value, request_to.
  destruct (net h _) as [resp|e]; [|reflexivity].
  destruct (_ && _); [|reflexivity].
  destruct expect_json; [destruct (json resp)|]; reflexivity.
Qed.

Lemma for_hosts_history_free (net : transport) (hosts : list str)
    (path : str) (params : option (dict pyval)) (expect_json : bool)
    (_headers : dict str) :
  stateless net ->
  history_free (for_hosts net hosts path params expect_json _headers).
Proof.
  intros Hnet. induction hosts as [|host rest IH]; intros h.
  - cbn. rewrite app_nil_r. reflexivity.
  - rewrite !for_hosts_step. rewrite (Hnet h []).
    destruct (success_value _ _); [reflexivity|].
    rewrite (IH (h ++ _)), (IH ([] ++ _)).
    cbn [fst snd app]. rewrite <- app_assoc. reflexivity.
Qed.

Lemma bind_history_free {A B} (m : M A) (k : A -> M B) :
  history_free m -> (forall a, history_free (k a)) ->
  history_free (bind m k).
Proof.
  intros Hm Hk h. unfold bind. rewrite (Hm h).
  destruct (m []) as [[a|e] s]; cbn [fst snd].
  - rewrite (Hk a (h ++ s)), (Hk a s), <- app_assoc. reflexivity.
  - reflexivity.
Qed.

Lemma pure_history_free {A} (r : res A) :
  history_free (fun h => (r, h)).
Proof. intros h. cbn. rewrite app_nil_r. reflexivity. Qed.

(** X16. Against hosts whose answers do not depend on earlier
    requests, a handler has no memory: from every history of requests
    it returns the same value and adds the same requests, so a call
    repeated with the same arguments returns what the first call
    returned. *)
Theorem handlers_repeatable (net : transport) :
  stateless net ->
  (forall icon color width height rotate flip box download,
      history_free (get_svg net icon color width height rotate flip box
                            download)) /\
  (forall icon, history_free (get_icon_data net icon)) /\
  (forall prefix prefixes,
      history_free (list_collections net prefix prefixes)) /\
  (forall prefix include_info include_chars,
      history_free (list_icons_in_collection net prefix include_info
                                             include_chars)) /\
  (forall query limit start prefix prefixes category style palette,
      history_free (search_icons net query limit start prefix prefixes
                                 category style palette)) /\
  (forall (op : M pyval),
      history_free op ->
      forall h, fst (op (snd (op h))) = fst (op h)).
Proof.
  intros Hnet.
  assert (Hreq : forall path params expect_json headers,
             history_free (_request_iconify net path params expect_json
                                            headers)).
  { intros. unfold _request_iconify.
    apply for_hosts_history_free, Hnet. }
  repeat match goal with |- _ /\ _ => split end.
  - intros icon color width height rotate flip box download.
    unfold get_svg. destruct (_split_icon icon) as [[prefix name]|[]];
      try apply pure_history_free.
    apply bind_history_free; [apply Hreq|].
    intros a. apply pure_history_free.
  - intros icon. unfold get_icon_data.
    destruct (_split_icon icon) as [[prefix name]|[]];
      try apply pure_history_free.
    apply bind_history_free; [apply Hreq|].
    intros a. apply pure_history_free.
  - intros. apply bind_history_free; [apply Hreq|].
    intros a. apply pure_history_free.
  - intros. apply bind_history_free; [apply Hreq|].
    intros a. apply pure_history_free.
  - intros. apply bind_history_free; [apply Hreq|].
    intros a. apply pure_history_free.
  - intros op Hop h. rewrite (Hop (snd (op h))), (Hop h). reflexivity.
Qed.

Lemma handlers_repeatable_witness :
  let net := primary_down [] (Ok sample_search_payload) in
  let before := snd (get_icon_data net (lit "tabler:home") []) in
  get_icon_data net (lit "mdi:home") before
  = (fst (get_icon_data net (lit "mdi:home") []),
     before ++ snd (get_icon_data net (lit "mdi:home") [])).
Proof.
  intros net before.
  destruct (handlers_repeatable net) as (_ & H & _).
  - intros h h' rq. reflexivity.
  - exact (H (lit "mdi:home") before).
Defined.

(** X17. The helper sees of the hosts only whether an attempt
    succeeds and, if so, its value: two transports that give the same
    successes give the same result and the same requests. Which
    exception a failed request raises, which status outside 200-299 a
    host answers, the body of such an answer, the text of an answer
    when JSON is expected and its JSON reading when text is expected
    make no difference. *)
Theorem request_iconify_sees_successes_only
    (net1 net2 : transport) (path : str) (params : option (dict pyval))
    (expect_json : bool) (headers : option (dict str)) :
  (forall h rq,
      success_value expect_json (net1 h rq)
      = success_value expect_json (net2 h rq)) ->
  forall h,
    _request_iconify net1 path params expect_json headers h
    = _request_iconify net2 path params expect_json headers h.
Proof.
  intros Hsame h. unfold _request_iconify.
  generalize (ICONIFY_BASE :: ICONIFY_BACKUPS) as hosts.
  intros hosts. revert h.
  induction hosts as [|host rest IH]; intros h; [reflexivity|].
  rewrite !for_hosts_step, Hsame.
  destruct (success_value _ _); [reflexivity | apply IH].
Qed.

Lemma request_iconify_sees_successes_only_witness :
  _request_iconify all_down (lit "/collections") None true None []
  = _request_iconify
      (fun _ _ => Ok {| status_code := 404; text := lit "Not Found";
                        json := Ok (PInt 404) |})
      (lit "/collections") None true None [].
Proof.
  apply request_iconify_sees_successes_only.
  intros h rq. reflexivity.
Defined.

Lemma split_icon_messages_witness :
  _split_icon (lit "bad-icon-format")
  = Raise (ValueError
             (lit "Icon must be in 'prefix:name' format, e.g., 'mdi:home'")).
Proof.
  destruct (split_icon_messages (lit "bad-icon-format")) as (H & _).
  apply H. vm_compute. intuition discriminate.
Defined.

Lemma search_params_bounds_and_filters_witness :
  exists s,
    dict_get (lit "start")
             (search_params (lit "home") (Some 5000) (-5) None None None
                            None None)
    = Some (PInt s) /\ s = 0.
Proof.
  destruct (search_params_bounds_and_filters (lit "home") (Some 5000) (-5)
              None None None None None)
    as (_ & (s & Hget & _ & _ & Hneg) & _).
  exists s. split; [exact Hget|]. apply Hneg. lia.
Defined.

Lemma search_icons_raises_type_error_witness :
  exists e,
    fst (search_icons (always_answers [] (Ok (PInt 404))) (lit "home")
                      None 0 None None None None None [])
    = Raise e.
Proof.
  destruct (search_icons_raises_type_error
              (always_answers [] (Ok (PInt 404))) (lit "home")
              None 0 None None None None None []) as (_ & H).
  apply H. exists (PInt 404). repeat split.
Defined.
